(** * Generic admin views (wagtail/admin/views/generic.py)

    A shallow embedding of the generic class-based admin views and of the
    two mixins they are built from.  The views are glue over external
    collaborators (permission policy, messaging, form/model layer, URL
    reversal, hook registry); every call to a collaborator is recorded in a
    chronological trace, so that statements about what happens, and in which
    order, are statements about that trace. *)

From stdpp Require Import base strings list gmap.
From Stdlib Require Import ZArith Lia.

Local Open Scope string_scope.
Local Open Scope Z_scope.

(** ** Data *)

Definition user := string.
Definition action := string.
Definition form := string.

(** A model instance: its primary key, which is [None] on an instance that
    has been deleted, and its [str()] rendering. *)
Record instance := Instance { obj_id : option Z; obj_str : string }.

(** What [Model.delete()] leaves of the instance it was called on: the
    same object with its primary key reset to [None]. *)
Definition deleted (o : instance) : instance := Instance None (obj_str o).

(** Exceptions that can travel through a view. *)
Inductive exn :=
| PermissionDenied
| NoReverseMatch
| Http404
| IndexError
| KeyError
| AttributeError
| DatabaseError.

(** The Python values that flow through hook results and template contexts. *)
#[warnings="-register-all"] Inductive pyval :=
| PyNone
| PyBool (b : bool)
| PyInt (z : Z)
| PyStr (s : string)
| PyTuple (items : list pyval)
| PyForm (f : form)
| PyInstance (o : instance)
| PyHttpResponse (status_code : Z)
| PyObject (attrs : list string).

(** Python truthiness, as a template's [{% if %}] sees a context entry. *)
Definition truthy (v : pyval) : bool :=
  match v with
  | PyNone => false
  | PyBool b => b
  | PyInt z => negb (z =? 0)
  | PyStr s => negb (String.eqb s "")
  | PyTuple items => negb (Nat.eqb (length items) 0)
  | PyForm _ | PyInstance _ | PyHttpResponse _ | PyObject _ => true
  end.

(** [hasattr(v, name)] for the one attribute [run_hook] asks about. *)
Definition hasattr (v : pyval) (name : string) : bool :=
  match v with
  | PyHttpResponse _ => String.eqb name "status_code"
  | PyObject attrs => bool_decide (name ∈ attrs)
  | _ => false
  end.

(** A button attached to a flashed message: target URL and label. *)
Definition button_t := (string * string)%type.

Inductive level := SUCCESS | ERROR.

Inductive response :=
| HttpResponseRedirect (to : string)
| TemplateResponse (template_name : option string) (context : gmap string pyval)
| HttpResponseAllow
| HttpResponseNotAllowed.

(** Calls to the external collaborators, in the order they are made. *)
Inductive event :=
| UserHasPermission (u : user) (a : action)
| UserHasAnyPermission (u : user) (actions : list action)
| Reversed (url_name : option string) (args : list (option Z))
| FormSaved (f : form)
| ObjectFetched (pk : Z)
| ObjectDeleted (o : instance)
| MessageAdded (lvl : level) (text : option string) (buttons : list button_t)
| Redirected (to : string)
| Rendered (template_name : option string)
| CallbackRan (mark : Z).

(** The mutating actions: persistence, deletion and message emission. *)
Definition is_mutating (e : event) : bool :=
  match e with
  | FormSaved _ | ObjectDeleted _ | MessageAdded _ _ _ => true
  | _ => false
  end.

Definition is_permission_check (e : event) : bool :=
  match e with
  | UserHasPermission _ _ | UserHasAnyPermission _ _ => true
  | _ => false
  end.

Definition is_message (e : event) : bool :=
  match e with MessageAdded _ _ _ => true | _ => false end.

Definition is_success_message (e : event) : bool :=
  match e with MessageAdded SUCCESS _ _ => true | _ => false end.

Definition is_error_message (e : event) : bool :=
  match e with MessageAdded ERROR _ _ => true | _ => false end.

Definition is_save (e : event) : bool :=
  match e with FormSaved _ => true | _ => false end.

(** The state a request runs in: the trace so far and the attributes the
    view instance mutates on itself. *)
Record world := World {
  trace : list event;
  self_form : option form;
  self_object : option instance;
  self_kwargs : gmap string Z
}.

(** ** State-and-exception monad

    A raised exception keeps the state reached so far, as in Python. *)
Definition M (A : Type) : Type := world -> (exn + A) * world.

Definition ret {A} (a : A) : M A := fun w => (inr a, w).

Definition raise {A} (e : exn) : M A := fun w => (inl e, w).

Definition bind {A B} (m : M A) (k : A -> M B) : M B :=
  fun w =>
    match m w with
    | (inr a, w') => k a w'
    | (inl e, w') => (inl e, w')
    end.

Notation "'let*' x ':=' m 'in' k" := (bind m (fun x => k))
  (at level 10, x binder, m at level 100, k at level 200).
Notation "m '>>' k" := (bind m (fun _ => k))
  (at level 80, right associativity).

Definition log (e : event) : M unit :=
  fun w => (inr tt, World (trace w ++ [e]) (self_form w) (self_object w) (self_kwargs w)).

(** Lift the outcome of a collaborator into the monad. *)
Definition lift {A} (r : exn + A) : M A :=
  match r with
  | inr a => ret a
  | inl e => raise e
  end.

Definition set_form (f : form) : M unit :=
  fun w => (inr tt, World (trace w) (Some f) (self_object w) (self_kwargs w)).

Definition set_object (o : option instance) : M unit :=
  fun w => (inr tt, World (trace w) (self_form w) o (self_kwargs w)).

Definition get_self_object : M (option instance) :=
  fun w => (inr (self_object w), w).

Definition get_kwargs : M (gmap string Z) :=
  fun w => (inr (self_kwargs w), w).

Definition set_kwarg (k : string) (v : Z) : M unit :=
  fun w => (inr tt, World (trace w) (self_form w) (self_object w) (<[k:=v]> (self_kwargs w))).

(** The events a computation adds to a trace that started as [before]. *)
Definition added (before : world) (after : world) : list event :=
  drop (length (trace before)) (trace after).

(** The world [w] after the calls [es] have been made on top of it. *)
Definition extend (w : world) (es : list event) : world :=
  World (trace w ++ es) (self_form w) (self_object w) (self_kwargs w).

(** ** External collaborators *)

(** A permission policy (wagtail.core.permission_policies): the two
    queries the views make. *)
Record policy := Policy {
  has_permission : user -> action -> bool;
  has_any_permission : user -> list action -> bool
}.

Definition user_has_permission (p : policy) (u : user) (a : action) : M bool :=
  log (UserHasPermission u a) >> ret (has_permission p u a).

Definition user_has_any_permission (p : policy) (u : user) (l : list action) : M bool :=
  log (UserHasAnyPermission u l) >> ret (has_any_permission p u l).

(** A hook callback: called with positional and keyword arguments, it may
    act on the world, raise, or return any value. *)
Definition callback := list pyval -> gmap string pyval -> M pyval.

(** What the framework and the persistence layer answer.  The database is
    not ours to describe: what it answers to a save, a fetch or a delete
    depends on everything that has been done so far, so these three take
    the history of calls made before them.  Formatting a message template
    with an object can raise ([KeyError], [IndexError], [AttributeError]). *)
Record collaborators := Collaborators {
  url_table : option string -> list (option Z) -> exn + string;
  is_valid : form -> bool;
  construct_instance : form -> instance -> instance;
  form_save : list event -> form -> exn + instance;
  queryset_get : list event -> Z -> exn + instance;
  model_delete : list event -> instance -> exn + unit;
  str_format : string -> pyval -> exn + string;
  base_context : gmap string pyval;
  registry : gmap string (list callback)
}.

(** The request methods the base views tell apart; [OTHER] stands for
    those none of them handles and for unknown ones. *)
Inductive http_method := GET | HEAD | POST | PUT | DELETE | OPTIONS | OTHER.

Record request_t := Request {
  req_user : user;
  req_method : http_method;
  req_POST : form;
  req_args : list Z
}.

(** Class attributes of a view: what a subclass configures. *)
Record view := View {
  permission_policy : option policy;
  permission_required : option action;
  any_permission_required : option (list action);
  index_url_name : option string;
  add_url_name : option string;
  edit_url_name : option string;
  delete_url_name : option string;
  template_name : option string;
  success_message : option string;
  error_message : option string
}.

(** ** Framework and sibling modules the views call *)

Section Calls.
Context (env : collaborators).

(** [django.urls.reverse]: looks the name up, raising [NoReverseMatch]
    (or whatever the table answers) when there is no such URL. *)
Definition reverse (url_name : option string) (args : list (option Z)) : M string :=
  log (Reversed url_name args) >> lift (url_table env url_name args).

(** [django.shortcuts.redirect] on an already reversed URL. *)
Definition redirect (to : string) : M response :=
  log (Redirected to) >> ret (HttpResponseRedirect to).

(** [form.save()], answered by the database as it stands. *)
Definition save (f : form) : M instance :=
  fun w => (log (FormSaved f) >> lift (form_save env (trace w) f)) w.

(** [form.is_valid()]: besides the verdict, a model form writes the posted
    values into its instance, which for an update is [self.object]. *)
Definition full_clean (f : form) : M bool :=
  fun w =>
    (inr (is_valid env f),
     World (trace w) (self_form w) (construct_instance env f <$> self_object w)
       (self_kwargs w)).

(** [template.format(object)]. *)
Definition format (template : string) (object : pyval) : M string :=
  lift (str_format env template object).

(** [TemplateResponseMixin.render_to_response]. *)
Definition render_to_response (self : view) (context : gmap string pyval) : M response :=
  log (Rendered (template_name self)) >> ret (TemplateResponse (template_name self) context).

(** The framework's [get_context_data]: the keyword arguments it is given
    on top of what the base classes contribute. *)
Definition super_get_context_data (kwargs : gmap string pyval) : gmap string pyval :=
  kwargs ∪ base_context env.

(** [SingleObjectMixin.get_object]: fetch by [self.kwargs['pk']]. *)
Definition super_get_object : M instance :=
  let* kw := get_kwargs in
  match kw !! "pk" with
  | Some pk => fun w => (log (ObjectFetched pk) >> lift (queryset_get env (trace w) pk)) w
  | None => raise AttributeError
  end.

(** Modelled from the spec: [wagtail.core.hooks.get_hooks], the hook
    registry is a "process-wide mapping from hook name to an ordered
    sequence of callables", read-only at request time. *)
Definition get_hooks (hook_name : string) : list callback :=
  default [] (registry env !! hook_name).
End Calls.

(** [wagtail.admin.messages], of which the views use three functions. *)
Module messages.
(** Modelled from the spec: [messages.success] of "a messaging interface
    (success, error, button)", missing from the sources at hand; it flashes
    one message of level success, with its buttons. *)
Definition success (message : option string) (buttons : list button_t) : M unit :=
  log (MessageAdded SUCCESS message buttons).

(** Modelled from the spec: [messages.error] of the same interface; it
    flashes one message of level error. *)
Definition error (message : option string) : M unit :=
  log (MessageAdded ERROR message []).

(** Modelled from the spec: [messages.button] of the same interface; it
    only builds the button, a target URL and a label. *)
Definition button (url : string) (text : string) : button_t := (url, text).
End messages.

(** ** PermissionCheckedMixin *)

Module PermissionCheckedMixin.
Definition dispatch {A} (self : view) (request : request_t) (super_dispatch : M A) : M A :=
  match permission_policy self with
  | Some permission_policy =>
      (match permission_required self with
       | Some permission_required =>
           let* allowed := user_has_permission permission_policy (req_user request) permission_required in
           if negb allowed then raise PermissionDenied else ret tt
       | None => ret tt
       end) >>
      (match any_permission_required self with
       | Some any_permission_required =>
           let* allowed := user_has_any_permission permission_policy (req_user request) any_permission_required in
           if negb allowed then raise PermissionDenied else ret tt
       | None => ret tt
       end) >>
      super_dispatch
  | None => super_dispatch
  end.
End PermissionCheckedMixin.

(** ** HookResponseMixin *)

Module HookResponseMixin.
(** The [for fn in ...] loop of [run_hook]; falling off the end of the
    loop is Python's implicit [return None]. *)
Fixpoint run_hook_loop (fns : list callback) (args : list pyval) (kwargs : gmap string pyval) : M pyval :=
  match fns with
  | [] => ret PyNone
  | fn :: rest =>
      let* result := fn args kwargs in
      if hasattr result "status_code" then ret result
      else run_hook_loop rest args kwargs
  end.

Definition run_hook (env : collaborators) (hook_name : string)
    (args : list pyval) (kwargs : gmap string pyval) : M pyval :=
  run_hook_loop (get_hooks env hook_name) args kwargs.
End HookResponseMixin.

(** ** The framework's base views

    The parts of [django.views.generic] the generic views delegate to by
    [super()] or are called back from.  Methods the subclasses override are
    taken as arguments, which is how the framework reaches them. *)

Module Framework.
Section Base.
Context (env : collaborators).

(** [FormMixin.form_invalid]: render the bound form again. *)
Definition form_invalid (self : view)
    (get_context_data : gmap string pyval -> M (gmap string pyval))
    (form : form) : M response :=
  let* context := get_context_data {[ "form" := PyForm form ]} in
  render_to_response self context.

(** [ProcessFormView.get]: render the unbound form. *)
Definition get (self : view)
    (get_context_data : gmap string pyval -> M (gmap string pyval)) : M response :=
  let* context := get_context_data {[ "form" := PyForm "" ]} in
  render_to_response self context.

(** [ProcessFormView.post]: validate, then hand over to the view. *)
Definition post (request : request_t)
    (form_valid form_invalid : form -> M response) : M response :=
  let form := req_POST request in
  let* valid := full_clean env form in
  if valid then form_valid form else form_invalid form.

(** [View.options]: an empty answer that lists the allowed methods. *)
Definition options : M response := ret HttpResponseAllow.

(** [DeletionMixin.delete]; a successful [self.object.delete()] leaves
    [self.object] without its primary key. *)
Definition delete (get_object : M instance) (get_success_url : M string) : M response :=
  let* object := get_object in
  set_object (Some object) >>
  let* success_url := get_success_url in
  (fun w => (log (ObjectDeleted object) >> lift (model_delete env (trace w) object)) w) >>
  set_object (Some (deleted object)) >>
  redirect success_url.
End Base.
End Framework.

(** ** IndexView *)

Module IndexView.
Definition defaults : view := {|
  permission_policy := None;
  permission_required := None;
  any_permission_required := Some ["add"; "change"; "delete"];
  index_url_name := None;
  add_url_name := None;
  edit_url_name := None;
  delete_url_name := None;
  template_name := None;
  success_message := None;
  error_message := None
|}.

Definition get_context_data (env : collaborators) (self : view) (request : request_t)
    (kwargs : gmap string pyval) : M (gmap string pyval) :=
  let context := super_get_context_data env kwargs in
  let* can_add :=
    match permission_policy self with
    | None => ret true
    | Some permission_policy => user_has_permission permission_policy (req_user request) "add"
    end in
  ret (<[ "can_add" := PyBool can_add ]> context).
End IndexView.

(** ** CreateView *)

Module CreateView.
Definition defaults : view := {|
  permission_policy := None;
  permission_required := Some "add";
  any_permission_required := None;
  index_url_name := None;
  add_url_name := None;
  edit_url_name := None;
  delete_url_name := None;
  template_name := Some "wagtailadmin/generic/create.html";
  success_message := None;
  error_message := None
|}.

Section Methods.
Context (env : collaborators) (self : view) (request : request_t).

Definition get_add_url : M string := reverse env (add_url_name self) [].

Definition get_success_url : M string := reverse env (index_url_name self) [].

Definition get_success_message (instance : instance) : M (option string) :=
  match success_message self with
  | None => ret None
  | Some success_message =>
      let* text := format env success_message (PyInstance instance) in
      ret (Some text)
  end.

Definition get_error_message : option string :=
  match error_message self with
  | None => None
  | Some error_message => Some error_message
  end.

Definition save_instance : M instance :=
  fun w =>
    match self_form w with
    | Some form => save env form w
    | None => raise AttributeError w
    end.

Definition form_valid (form : form) : M response :=
  set_form form >>
  let* object := save_instance in
  set_object (Some object) >>
  let* success_message := get_success_message object in
  match success_message with
  | Some _ =>
      let* edit_url := reverse env (edit_url_name self) [obj_id object] in
      messages.success success_message [messages.button edit_url "Edit"]
  | None => ret tt
  end >>
  let* success_url := get_success_url in
  redirect success_url.

Definition get_context_data (kwargs : gmap string pyval) : M (gmap string pyval) :=
  ret (super_get_context_data env kwargs).

Definition form_invalid (form : form) : M response :=
  set_form form >>
  let error_message := get_error_message in
  match error_message with
  | Some _ => messages.error error_message
  | None => ret tt
  end >>
  Framework.form_invalid self get_context_data form.

(** [BaseCreateView.get] and [.post] set [self.object = None] first. *)
Definition super_dispatch : M response :=
  match req_method request with
  | GET | HEAD => set_object None >> Framework.get self get_context_data
  | POST | PUT => set_object None >> Framework.post env request form_valid form_invalid
  | OPTIONS => Framework.options
  | DELETE | OTHER => ret HttpResponseNotAllowed
  end.

Definition dispatch : M response :=
  PermissionCheckedMixin.dispatch self request super_dispatch.
End Methods.
End CreateView.

(** ** EditView *)

Module EditView.
Definition defaults : view := {|
  permission_policy := None;
  permission_required := Some "change";
  any_permission_required := None;
  index_url_name := None;
  add_url_name := None;
  edit_url_name := None;
  delete_url_name := None;
  template_name := Some "wagtailadmin/generic/edit.html";
  success_message := None;
  error_message := None
|}.

Section Methods.
Context (env : collaborators) (self : view) (request : request_t).

Definition get_object : M instance :=
  let* kwargs := get_kwargs in
  match kwargs !! "pk" with
  | Some _ => ret tt
  | None =>
      match req_args request with
      | arg0 :: _ => set_kwarg "pk" arg0
      | [] => raise IndexError
      end
  end >>
  super_get_object env.

Definition get_success_url : M string := reverse env (index_url_name self) [].

Definition save_instance : M instance :=
  fun w =>
    match self_form w with
    | Some form => save env form w
    | None => raise AttributeError w
    end.

Definition get_success_message : M (option string) :=
  match success_message self with
  | None => ret None
  | Some success_message =>
      let* object := get_self_object in
      let* text := format env success_message
                     (match object with Some o => PyInstance o | None => PyNone end) in
      ret (Some text)
  end.

Definition get_error_message : option string :=
  match error_message self with
  | None => None
  | Some error_message => Some error_message
  end.

Definition form_valid (form : form) : M response :=
  set_form form >>
  let* saved := save_instance in
  set_object (Some saved) >>
  let* success_message := get_success_message in
  match success_message with
  | Some _ =>
      let* object := get_self_object in
      let* edit_url :=
        match object with
        | Some o => reverse env (edit_url_name self) [obj_id o]
        | None => raise AttributeError
        end in
      messages.success success_message [messages.button edit_url "Edit"]
  | None => ret tt
  end >>
  let* success_url := get_success_url in
  redirect success_url.

(** Line 205-208 ends in a comma: the entry is the one-element tuple
    [(flag,)], not the flag. *)
Definition get_context_data (kwargs : gmap string pyval) : M (gmap string pyval) :=
  let context := super_get_context_data env kwargs in
  let* can_delete :=
    match permission_policy self with
    | None => ret true
    | Some permission_policy => user_has_permission permission_policy (req_user request) "delete"
    end in
  ret (<[ "can_delete" := PyTuple [PyBool can_delete] ]> context).

Definition form_invalid (form : form) : M response :=
  set_form form >>
  let error_message := get_error_message in
  match error_message with
  | Some _ => messages.error error_message
  | None => ret tt
  end >>
  Framework.form_invalid self get_context_data form.

(** [BaseUpdateView.get] and [.post] set [self.object = self.get_object()] first. *)
Definition super_dispatch : M response :=
  match req_method request with
  | GET | HEAD =>
      let* object := get_object in
      set_object (Some object) >> Framework.get self get_context_data
  | POST | PUT =>
      let* object := get_object in
      set_object (Some object) >> Framework.post env request form_valid form_invalid
  | OPTIONS => Framework.options
  | DELETE | OTHER => ret HttpResponseNotAllowed
  end.

Definition dispatch : M response :=
  PermissionCheckedMixin.dispatch self request super_dispatch.

(** [reverse(self.edit_url_name, args=(self.object.id,))]. *)
Definition get_edit_url : M string :=
  let* object := get_self_object in
  match object with
  | Some o => reverse env (edit_url_name self) [obj_id o]
  | None => raise AttributeError
  end.

Definition get_delete_url : M string :=
  let* object := get_self_object in
  match object with
  | Some o => reverse env (delete_url_name self) [obj_id o]
  | None => raise AttributeError
  end.
End Methods.
End EditView.

(** ** DeleteView *)

Module DeleteView.
Definition defaults : view := {|
  permission_policy := None;
  permission_required := Some "delete";
  any_permission_required := None;
  index_url_name := None;
  add_url_name := None;
  edit_url_name := None;
  delete_url_name := None;
  template_name := Some "wagtailadmin/generic/confirm_delete.html";
  success_message := None;
  error_message := None
|}.

Section Methods.
Context (env : collaborators) (self : view) (request : request_t).

Definition get_object : M instance :=
  let* kwargs := get_kwargs in
  match kwargs !! "pk" with
  | Some _ => ret tt
  | None =>
      match req_args request with
      | arg0 :: _ => set_kwarg "pk" arg0
      | [] => raise IndexError
      end
  end >>
  super_get_object env.

Definition get_success_url : M string := reverse env (index_url_name self) [].

Definition get_success_message : M (option string) :=
  match success_message self with
  | None => ret None
  | Some success_message =>
      let* object := get_self_object in
      let* text := format env success_message
                     (match object with Some o => PyInstance o | None => PyNone end) in
      ret (Some text)
  end.

Definition delete : M response :=
  let* response := Framework.delete env get_object get_success_url in
  let* message := get_success_message in
  messages.success message [] >>
  ret response.

(** [BaseDetailView.get] renders the confirmation page; [DeletionMixin.post]
    calls [self.delete]. *)
Definition super_dispatch : M response :=
  match req_method request with
  | GET | HEAD =>
      let* object := get_object in
      set_object (Some object) >>
      render_to_response self (super_get_context_data env {[ "object" := PyInstance object ]})
  | POST | DELETE => delete
  | OPTIONS => Framework.options
  | PUT | OTHER => ret HttpResponseNotAllowed
  end.

Definition dispatch : M response :=
  PermissionCheckedMixin.dispatch self request super_dispatch.

(** [reverse(self.delete_url_name, args=(self.object.id,))]. *)
Definition get_delete_url : M string :=
  let* object := get_self_object in
  match object with
  | Some o => reverse env (delete_url_name self) [obj_id o]
  | None => raise AttributeError
  end.
End Methods.
End DeleteView.

(** ** A concrete installation, to run the views on *)

Module Example.
Definition urls (url_name : option string) (args : list (option Z)) : exn + string :=
  match url_name, args with
  | Some "things:index", [] => inr "/admin/things/"
  | Some "things:add", [] => inr "/admin/things/add/"
  | Some "things:edit", [Some pk] => inr "/admin/things/edit/"
  | Some "things:delete", [Some pk] => inr "/admin/things/delete/"
  | _, _ => inl NoReverseMatch
  end.

(** The one row of the example's table, under key 7, is there until it
    has been deleted. *)
Definition row_deleted (e : event) : bool :=
  match e with
  | ObjectDeleted o => bool_decide (obj_id o = Some 7)
  | _ => false
  end.

Definition fetch (history : list event) (pk : Z) : exn + instance :=
  if (pk =? 7) && negb (existsb row_deleted history)
  then inr (Instance (Some 7) "seven")
  else inl Http404.

(** Templates that name a field the object does not have do not format. *)
Definition format (template : string) (object : pyval) : exn + string :=
  if String.prefix "{name}" template then inl KeyError else inr template.

(** A callback that leaves a mark in the trace and returns [result]. *)
Definition marking (mark : Z) (result : pyval) : callback :=
  fun _ _ => log (CallbackRan mark) >> ret result.

Definition env : collaborators := {|
  url_table := urls;
  is_valid := fun form => negb (String.eqb form "");
  construct_instance := fun form object => Instance (obj_id object) form;
  form_save := fun _ form => inr (Instance (Some 7) form);
  queryset_get := fetch;
  model_delete := fun _ _ => inr tt;
  str_format := format;
  base_context := ∅;
  registry := {[ "before_edit" := [marking 1 PyNone; marking 2 (PyHttpResponse 302); marking 3 PyNone];
                 "after_edit" := [marking 4 (PyStr "ignored"); marking 5 PyNone] ]}
|}.

(** Only [admin] may do anything. *)
Definition admins_only : policy := {|
  has_permission := fun u _ => String.eqb u "admin";
  has_any_permission := fun u _ => String.eqb u "admin"
|}.

Definition things (defaults : view) : view := {|
  permission_policy := Some admins_only;
  permission_required := permission_required defaults;
  any_permission_required := any_permission_required defaults;
  index_url_name := Some "things:index";
  add_url_name := Some "things:add";
  edit_url_name := Some "things:edit";
  delete_url_name := Some "things:delete";
  template_name := template_name defaults;
  success_message := None;
  error_message := None
|}.

Definition with_messages (v : view) : view := {|
  permission_policy := permission_policy v;
  permission_required := permission_required v;
  any_permission_required := any_permission_required v;
  index_url_name := index_url_name v;
  add_url_name := add_url_name v;
  edit_url_name := edit_url_name v;
  delete_url_name := delete_url_name v;
  template_name := template_name v;
  success_message := Some "Thing saved.";
  error_message := Some "The thing could not be saved due to errors."
|}.

Definition start : world := World [] None None ∅.

Definition post_by (u : user) (data : form) : request_t := Request u POST data [7].
End Example.

(** ** Specification-side vocabulary *)

(** The denial condition in the words of the mixin's contract: there is a
    policy, and a required permission the policy refuses, or a required
    list of permissions of which the policy grants none. *)
Definition denied_by_policy (self : view) (u : user) : Prop :=
  exists p, permission_policy self = Some p /\
    ((exists a, permission_required self = Some a /\ has_permission p u a = false) \/
     (exists l, any_permission_required self = Some l /\ has_any_permission p u l = false)).

Definition policy_denies (self : view) (u : user) : bool :=
  match permission_policy self with
  | None => false
  | Some p =>
      match permission_required self with
      | Some a => negb (has_permission p u a)
      | None => false
      end
      || match any_permission_required self with
         | Some l => negb (has_any_permission p u l)
         | None => false
         end
  end.

(** [passes args kwargs fns w w']: calling the callbacks [fns] one after the
    other, in list order, from [w] leads to [w'], and every one of them
    returned a value without a [status_code]. *)
Inductive passes (args : list pyval) (kwargs : gmap string pyval) :
    list callback -> world -> world -> Prop :=
| passes_nil w : passes args kwargs [] w w
| passes_cons fn rest result w w1 w2 :
    fn args kwargs w = (inr result, w1) ->
    hasattr result "status_code" = false ->
    passes args kwargs rest w1 w2 ->
    passes args kwargs (fn :: rest) w w2.

(** The two views with a form, and the requests that change something. *)
Inductive form_view := Create | Edit.

Definition form_valid_of (v : form_view) (env : collaborators) (self : view) : form -> M response :=
  match v with
  | Create => CreateView.form_valid env self
  | Edit => EditView.form_valid env self
  end.

Definition form_invalid_of (v : form_view) (env : collaborators) (self : view)
    (request : request_t) : form -> M response :=
  match v with
  | Create => CreateView.form_invalid env self
  | Edit => EditView.form_invalid env self request
  end.

Inductive outcome :=
| ValidForm (v : form_view) (f : form)
| InvalidForm (v : form_view) (f : form)
| Deletion.

Definition handle (o : outcome) (env : collaborators) (self : view) (request : request_t) : M response :=
  match o with
  | ValidForm v f => form_valid_of v env self f
  | InvalidForm v f => form_invalid_of v env self request f
  | Deletion => DeleteView.delete env self request
  end.

Definition is_mutation (o : outcome) : bool :=
  match o with
  | ValidForm _ _ | Deletion => true
  | InvalidForm _ _ => false
  end.

(** The number of messages a completed mutating request flashes. *)
Definition messages_due (o : outcome) (self : view) : nat :=
  match o with
  | Deletion => 1
  | _ => match success_message self with Some _ => 1 | None => 0 end
  end.

(** The view [self] has the permission attributes of the class [d]. *)
Definition same_permissions (self d : view) : Prop :=
  permission_required self = permission_required d /\
  any_permission_required self = any_permission_required d.

(** Ask the policy for one permission, then go on with [k] or raise. *)
Definition asks_first (p : policy) (u : user) (a : action) (w : world)
    (k : M response) : (exn + response) * world :=
  if has_permission p u a then k (extend w [UserHasPermission u a])
  else (inl PermissionDenied, extend w [UserHasPermission u a]).

(** The calls that build the redirect of a successful request. *)
Definition is_redirect_step (e : event) : bool :=
  match e with
  | Reversed _ _ | Redirected _ => true
  | _ => false
  end.

(** The steps of a validated request, as the views' state machine names
    them, and the step a call stands for. *)
Inductive step := Persist | Flash | Redirect.

Definition step_of (e : event) : option step :=
  match e with
  | FormSaved _ => Some Persist
  | MessageAdded _ _ _ => Some Flash
  | Redirected _ => Some Redirect
  | _ => None
  end.

Definition steps_of (es : list event) : list step := omap step_of es.

(** The steps a valid form submission is to go through: persist, flash the
    success message when one is configured, redirect. *)
Definition plan (self : view) : list step :=
  match success_message self with
  | Some _ => [Persist; Flash; Redirect]
  | None => [Persist; Redirect]
  end.

(** Methods called on one edit view instance in the course of a request,
    and the state a sequence of such calls leaves. *)
Inductive call :=
| Handle (o : outcome) (request : request_t)
| GetObject (request : request_t)
| GetContextData (request : request_t) (kwargs : gmap string pyval)
| GetEditUrl
| GetDeleteUrl.

Definition after_call (env : collaborators) (self : view) (w : world) (c : call) : world :=
  match c with
  | Handle o request => snd (handle o env self request w)
  | GetObject request => snd (EditView.get_object env request w)
  | GetContextData request kwargs => snd (EditView.get_context_data env self request kwargs w)
  | GetEditUrl => snd (EditView.get_edit_url env self w)
  | GetDeleteUrl => snd (EditView.get_delete_url env self w)
  end.

Definition after_calls (env : collaborators) (self : view) (w : world) (cs : list call) : world :=
  foldl (after_call env self) w cs.

(** ** Proof support *)

Lemma extend_nil w : extend w [] = w.
Proof. destruct w; unfold extend; simpl. by rewrite app_nil_r. Qed.

Lemma extend_extend w es es' : extend (extend w es) es' = extend w (es ++ es').
Proof. unfold extend; simpl. by rewrite app_assoc. Qed.

Lemma bind_inr {A B} (m : M A) (k : A -> M B) w a w1 :
  m w = (inr a, w1) -> bind m k w = k a w1.
Proof. unfold bind. by intros ->. Qed.

Lemma bind_inl {A B} (m : M A) (k : A -> M B) w e w1 :
  m w = (inl e, w1) -> bind m k w = (inl e, w1).
Proof. unfold bind. by intros ->. Qed.

Lemma log_extend e w : log e w = (inr tt, extend w [e]).
Proof. reflexivity. Qed.

Lemma added_extend w es : added w (extend w es) = es.
Proof. unfold added, extend; simpl. apply drop_app_length. Qed.

Lemma policy_denies_spec self u : policy_denies self u = true <-> denied_by_policy self u.
Proof.
  unfold policy_denies, denied_by_policy. split.
  - destruct (permission_policy self) as [p|]; [|done].
    intros H. exists p. split; [done|].
    apply orb_true_iff in H as [H|H].
    + left. destruct (permission_required self) as [a|]; [|done].
      exists a. split; [done|]. by apply negb_true_iff.
    + right. destruct (any_permission_required self) as [l|]; [|done].
      exists l. split; [done|]. by apply negb_true_iff.
  - intros (p & -> & [(a & -> & Ha)|(l & -> & Hl)]).
    + by rewrite Ha.
    + rewrite Hl. apply orb_true_r.
Qed.

(** What the mixin's [dispatch] does, case by case. *)
Lemma dispatch_cases {A} self request (k : M A) w :
  let u := req_user request in
  match permission_policy self with
  | None => PermissionCheckedMixin.dispatch self request k w = k w
  | Some p =>
      match permission_required self, any_permission_required self with
      | None, None => PermissionCheckedMixin.dispatch self request k w = k w
      | Some a, None =>
          PermissionCheckedMixin.dispatch self request k w =
            if has_permission p u a then k (extend w [UserHasPermission u a])
            else (inl PermissionDenied, extend w [UserHasPermission u a])
      | None, Some l =>
          PermissionCheckedMixin.dispatch self request k w =
            if has_any_permission p u l then k (extend w [UserHasAnyPermission u l])
            else (inl PermissionDenied, extend w [UserHasAnyPermission u l])
      | Some a, Some l =>
          PermissionCheckedMixin.dispatch self request k w =
            if has_permission p u a then
              if has_any_permission p u l
              then k (extend w [UserHasPermission u a; UserHasAnyPermission u l])
              else (inl PermissionDenied, extend w [UserHasPermission u a; UserHasAnyPermission u l])
            else (inl PermissionDenied, extend w [UserHasPermission u a])
      end
  end.
Proof.
  unfold PermissionCheckedMixin.dispatch.
  destruct (permission_policy self) as [p|]; [|done].
  destruct (permission_required self) as [a|], (any_permission_required self) as [l|];
    cbv [bind user_has_permission user_has_any_permission ret raise log extend]; simpl;
    repeat (case_match; simplify_eq/=); rewrite <- ?app_assoc; try done.
Qed.

(** ** PermissionCheckedMixin: theorems *)

(** C1. On a view with a permission policy, the permission checks are the
    first thing [dispatch] does: the calls it makes before anything else are
    permission checks only (the [permission_required] one first, when set),
    no save, delete or message is among them, and the base view, where all
    mutation lives, only ever starts from a world in which they have been
    made.  When the policy denies the user, [dispatch] raises
    [PermissionDenied] right there, whatever the base view would have done,
    so nothing is saved, deleted or flashed. *)
Theorem permission_check_precedes_mutation {A} (self : view) (request : request_t)
    (super_dispatch : M A) (w : world) (p : policy) :
  permission_policy self = Some p ->
  exists checks,
    forallb is_permission_check checks = true /\
    List.filter is_mutating checks = [] /\
    (forall a, permission_required self = Some a ->
       head checks = Some (UserHasPermission (req_user request) a)) /\
    if policy_denies self (req_user request)
    then PermissionCheckedMixin.dispatch self request super_dispatch w
           = (inl PermissionDenied, extend w checks)
    else (forall l, any_permission_required self = Some l ->
            last checks = Some (UserHasAnyPermission (req_user request) l)) /\
         PermissionCheckedMixin.dispatch self request super_dispatch w
           = super_dispatch (extend w checks).
Proof.
  intros Hp.
  pose proof (dispatch_cases self request super_dispatch w) as H.
  unfold policy_denies. simpl in H. rewrite Hp in *.
  destruct (permission_required self) as [a|], (any_permission_required self) as [l|].
  - destruct (has_permission p _ a); simpl.
    + destruct (has_any_permission p _ l); simpl;
        (eexists; split_and!; [| |intros ? [= <-]|..]; [..|apply H]; try done).
      intros ? [= <-]. done.
    + eexists; split_and!; [| |intros ? [= <-]|apply H]; done.
  - destruct (has_permission p _ a); simpl;
      (eexists; split_and!; [| |intros ? [= <-]|..]; [..|apply H]; done).
  - destruct (has_any_permission p _ l); simpl;
      (eexists; split_and!; [| |done|..]; [..|apply H]; try done).
    intros ? [= <-]. done.
  - exists []. rewrite extend_nil. split_and!; done.
Qed.

Lemma permission_check_precedes_mutation_witness :
  permission_policy (Example.things CreateView.defaults) = Some Example.admins_only /\
  exists checks,
    forallb is_permission_check checks = true /\
    List.filter is_mutating checks = [] /\
    (forall a, permission_required (Example.things CreateView.defaults) = Some a ->
       head checks = Some (UserHasPermission "bob" a)) /\
    PermissionCheckedMixin.dispatch (Example.things CreateView.defaults)
        (Example.post_by "bob" "x")
        (CreateView.super_dispatch Example.env (Example.things CreateView.defaults)
           (Example.post_by "bob" "x"))
        Example.start
      = (inl PermissionDenied, extend Example.start checks).
Proof.
  split; [reflexivity|].
  exact (permission_check_precedes_mutation (Example.things CreateView.defaults)
           (Example.post_by "bob" "x")
           (CreateView.super_dispatch Example.env (Example.things CreateView.defaults)
              (Example.post_by "bob" "x"))
           Example.start Example.admins_only eq_refl).
Defined.

(** C9. [dispatch] raises [PermissionDenied] of its own, that is whatever
    the base view is, exactly when there is a policy and either the required
    permission is set and refused or the any-of list is set and refused;
    in every other case [dispatch] is the base view run after the checks, so
    an exception then is the base view's.  Without a policy nothing is
    checked, whatever [permission_required] says: [dispatch] is the base
    view, on the untouched world.  With both attributes set, the request is
    denied unless both checks pass. *)
Theorem dispatch_raises_iff_denied (self : view) (request : request_t) (w : world) :
  ((forall super_dispatch : M response,
      fst (PermissionCheckedMixin.dispatch self request super_dispatch w) = inl PermissionDenied)
   <-> denied_by_policy self (req_user request)) /\
  (forall super_dispatch : M response,
     ~ denied_by_policy self (req_user request) ->
     exists checks,
       forallb is_permission_check checks = true /\
       PermissionCheckedMixin.dispatch self request super_dispatch w
         = super_dispatch (extend w checks)) /\
  (forall super_dispatch : M response,
     permission_policy self = None ->
     PermissionCheckedMixin.dispatch self request super_dispatch w = super_dispatch w) /\
  (forall p a l,
     permission_policy self = Some p ->
     permission_required self = Some a ->
     any_permission_required self = Some l ->
     (denied_by_policy self (req_user request) <->
      ~ (has_permission p (req_user request) a = true /\
         has_any_permission p (req_user request) l = true))).
Proof.
  assert (Hreach : forall super_dispatch : M response,
             policy_denies self (req_user request) = false ->
             exists checks,
               forallb is_permission_check checks = true /\
               PermissionCheckedMixin.dispatch self request super_dispatch w
                 = super_dispatch (extend w checks)).
  { intros k. pose proof (dispatch_cases self request k w) as H. simpl in H.
    unfold policy_denies.
    destruct (permission_policy self) as [p|];
      [|intros _; exists []; by rewrite extend_nil].
    destruct (permission_required self) as [a|], (any_permission_required self) as [l|];
      rewrite H; repeat case_match; simpl; try done; intros _;
      try (eexists; split; [|reflexivity]; done).
    exists []. by rewrite extend_nil. }
  split_and!.
  - rewrite <- policy_denies_spec. split.
    + intros Hall. destruct (policy_denies self (req_user request)) eqn:Hd; [done|].
      destruct (Hreach (ret HttpResponseNotAllowed) eq_refl) as (checks & _ & Hrun).
      specialize (Hall (ret HttpResponseNotAllowed)). by rewrite Hrun in Hall.
    + intros Hd k. pose proof (dispatch_cases self request k w) as H. simpl in H.
      revert Hd. unfold policy_denies.
      destruct (permission_policy self) as [p|]; [|done].
      destruct (permission_required self) as [a|], (any_permission_required self) as [l|];
        rewrite H; repeat case_match; simpl; done.
  - intros k Hnot. apply Hreach.
    apply not_true_is_false. intros Hd. by apply Hnot, policy_denies_spec.
  - intros k Hnone. pose proof (dispatch_cases self request k w) as H. simpl in H.
    by rewrite Hnone in H.
  - intros p a l Hp Ha Hl. rewrite <- policy_denies_spec. unfold policy_denies.
    rewrite Hp, Ha, Hl.
    destruct (has_permission p _ a), (has_any_permission p _ l); simpl; split; try done;
      first [ intros Hn; exfalso; by apply Hn | intros _ [? ?]; done ].
Qed.

(** The index view of the example installation refuses [bob] and lets
    [admin] through to the base view. *)
Example index_view_refuses_bob :
  let self := Example.things IndexView.defaults in
  denied_by_policy self "bob" /\ ~ denied_by_policy self "admin".
Proof.
  split; [apply policy_denies_spec; reflexivity|].
  intros Hd. apply policy_denies_spec in Hd. discriminate Hd.
Qed.

(** The three mutating views are the mixin around their base view, so a
    denied request to any of them raises before anything is saved, deleted
    or flashed. *)
Lemma denied_dispatch_mutates_nothing {A} (self : view) (request : request_t)
    (super_dispatch : M A) (w : world) :
  policy_denies self (req_user request) = true ->
  let r := PermissionCheckedMixin.dispatch self request super_dispatch w in
  fst r = inl PermissionDenied /\ List.filter is_mutating (added w (snd r)) = [].
Proof.
  intros Hd. pose proof (dispatch_cases self request super_dispatch w) as H.
  revert Hd. unfold policy_denies. simpl in *.
  destruct (permission_policy self) as [p|]; [|done].
  destruct (permission_required self) as [a|], (any_permission_required self) as [l|];
    rewrite H; repeat case_match; simpl; try done; intros _;
    by rewrite added_extend.
Qed.

Lemma denied_views_mutate_nothing (env : collaborators) (self : view)
    (request : request_t) (w : world) :
  policy_denies self (req_user request) = true ->
  Forall (fun r : (exn + response) * world =>
            fst r = inl PermissionDenied /\ List.filter is_mutating (added w (snd r)) = [])
    [CreateView.dispatch env self request w;
     EditView.dispatch env self request w;
     DeleteView.dispatch env self request w].
Proof.
  intros Hd. repeat constructor; by apply denied_dispatch_mutates_nothing.
Qed.

(** A posted form reaches [form_valid] exactly when it validates, and
    [form_invalid] otherwise, in both cases after validation has had its
    way with [self.object]. *)
Lemma post_splits_on_validity (env : collaborators) (request : request_t)
    (form_valid form_invalid : form -> M response) (w : world) :
  Framework.post env request form_valid form_invalid w =
    let cleaned := snd (full_clean env (req_POST request) w) in
    if is_valid env (req_POST request)
    then form_valid (req_POST request) cleaned
    else form_invalid (req_POST request) cleaned.
Proof.
  unfold Framework.post, bind, full_clean. cbn.
  by destruct (is_valid env (req_POST request)).
Qed.

(** ** HookResponseMixin: theorems *)

Lemma run_hook_loop_cons fn rest args kwargs w :
  HookResponseMixin.run_hook_loop (fn :: rest) args kwargs w =
    match fn args kwargs w with
    | (inr result, w1) =>
        if hasattr result "status_code" then (inr result, w1)
        else HookResponseMixin.run_hook_loop rest args kwargs w1
    | (inl e, w1) => (inl e, w1)
    end.
Proof.
  cbn [HookResponseMixin.run_hook_loop]. unfold bind.
  destruct (fn args kwargs w) as [[e|result] w1]; [done|].
  by destruct (hasattr result "status_code").
Qed.

Lemma run_hook_loop_outcome (fns : list callback) args kwargs w :
  (exists (before : list callback) fn after result w1 w2,
     fns = (before ++ fn :: after)%list /\
     passes args kwargs before w w1 /\
     fn args kwargs w1 = (inr result, w2) /\
     hasattr result "status_code" = true /\
     HookResponseMixin.run_hook_loop fns args kwargs w = (inr result, w2))
  \/ (exists w',
     passes args kwargs fns w w' /\
     HookResponseMixin.run_hook_loop fns args kwargs w = (inr PyNone, w'))
  \/ (exists (before : list callback) fn after e w1 w2,
     fns = (before ++ fn :: after)%list /\
     passes args kwargs before w w1 /\
     fn args kwargs w1 = (inl e, w2) /\
     HookResponseMixin.run_hook_loop fns args kwargs w = (inl e, w2)).
Proof.
  revert w. induction fns as [|fn rest IH]; intros w.
  - right; left. exists w. split; [constructor|done].
  - rewrite run_hook_loop_cons.
    destruct (fn args kwargs w) as [[e|result] w1] eqn:Hfn.
    + right; right. exists [], fn, rest, e, w, w1. split_and!; try done. constructor.
    + destruct (hasattr result "status_code") eqn:Hattr.
      * left. exists [], fn, rest, result, w, w1. split_and!; try done. constructor.
      * destruct (IH w1) as [(before & fn' & after & r & wa & wb & -> & Hp & Hf & Hs & Hrun)
                            |[(w' & Hp & Hrun)
                             |(before & fn' & after & e & wa & wb & -> & Hp & Hf & Hrun)]].
        -- left. exists (fn :: before), fn', after, r, wa, wb.
           split_and!; try done. econstructor; eauto.
        -- right; left. exists w'. split; [econstructor; eauto|done].
        -- right; right. exists (fn :: before), fn', after, e, wa, wb.
           split_and!; try done. econstructor; eauto.
Qed.

(** C2. [run_hook] takes the callbacks registered under the name, in their
    registered order, and calls them one after the other.  Either some
    callback returns a result with a [status_code]: every callback before it
    was called, in order, and returned something else, and [run_hook]
    returns that result from the world that callback left, the callbacks
    after it never being called.  Or none does: all were called, in order,
    and [run_hook] returns [None].  (A callback that raises instead of
    returning ends the run with its exception, at that point.) *)
Theorem run_hook_first_response (env : collaborators) (hook_name : string)
    (args : list pyval) (kwargs : gmap string pyval) (w : world) :
  let registered := default [] (registry env !! hook_name) in
  (exists (before : list callback) fn after result w1 w2,
     registered = (before ++ fn :: after)%list /\
     passes args kwargs before w w1 /\
     fn args kwargs w1 = (inr result, w2) /\
     hasattr result "status_code" = true /\
     HookResponseMixin.run_hook env hook_name args kwargs w = (inr result, w2))
  \/ (exists w',
     passes args kwargs registered w w' /\
     HookResponseMixin.run_hook env hook_name args kwargs w = (inr PyNone, w'))
  \/ (exists (before : list callback) fn after e w1 w2,
     registered = (before ++ fn :: after)%list /\
     passes args kwargs before w w1 /\
     fn args kwargs w1 = (inl e, w2) /\
     HookResponseMixin.run_hook env hook_name args kwargs w = (inl e, w2)).
Proof.
  intros registered. unfold HookResponseMixin.run_hook, get_hooks.
  apply run_hook_loop_outcome.
Qed.

(** On the example registry: the third callback of [before_edit] is never
    reached, both callbacks of [after_edit] run, an unknown name runs none. *)
Example run_hook_before_edit :
  let r := HookResponseMixin.run_hook Example.env "before_edit" [] ∅ Example.start in
  fst r = inr (PyHttpResponse 302) /\ trace (snd r) = [CallbackRan 1; CallbackRan 2].
Proof. vm_compute. done. Qed.

Example run_hook_after_edit :
  let r := HookResponseMixin.run_hook Example.env "after_edit" [] ∅ Example.start in
  fst r = inr PyNone /\ trace (snd r) = [CallbackRan 4; CallbackRan 5].
Proof. vm_compute. done. Qed.

Example run_hook_unknown :
  HookResponseMixin.run_hook Example.env "no_such_hook" [] ∅ Example.start
    = (inr PyNone, Example.start).
Proof. vm_compute. done. Qed.

(** ** Running the views symbolically *)

Lemma added_app w w' es : trace w' = (trace w ++ es)%list -> added w w' = es.
Proof. unfold added. intros ->. apply drop_app_length. Qed.

Lemma added_same w w' : trace w' = trace w -> added w w' = [].
Proof. intros H. apply added_app. by rewrite app_nil_r. Qed.

(** Unfold a view method down to the collaborators' answers and split on
    every answer. *)
Ltac unfold_views :=
  cbv [handle form_valid_of form_invalid_of
       CreateView.form_valid CreateView.form_invalid CreateView.save_instance
       CreateView.get_success_message CreateView.get_error_message
       CreateView.get_success_url CreateView.get_context_data
       EditView.form_valid EditView.form_invalid EditView.save_instance
       EditView.get_success_message EditView.get_error_message
       EditView.get_success_url EditView.get_context_data EditView.get_object
       DeleteView.delete DeleteView.get_object DeleteView.get_success_message
       DeleteView.get_success_url
       Framework.form_invalid Framework.delete Framework.post Framework.get
       render_to_response reverse redirect save format super_get_object
       user_has_permission user_has_any_permission
       messages.success messages.error messages.button
       bind ret raise log lift set_form set_object get_self_object get_kwargs set_kwarg].

Ltac split_answers :=
  repeat (case_match; simplify_eq; cbn [fst snd trace self_form self_object self_kwargs] in * ).

Ltac solve_added :=
  match goal with
  | |- context [added ?w ?w'] =>
      let H := fresh in
      eassert (added w w' = _) as H
        by first [ apply added_same; reflexivity
                 | apply added_app; cbn [trace]; rewrite <- ?app_assoc; reflexivity ];
      rewrite ?H; clear H
  end.

(** ** Messages: theorems *)

(** C4. Whatever the outcome of a request (valid form, invalid form,
    deletion; finished or cut short by an exception), the handler flashes at
    most one success message and at most one error message, and never two
    messages of any kind. *)
Theorem at_most_one_message (o : outcome) (env : collaborators) (self : view)
    (request : request_t) (w : world) :
  let w' := snd (handle o env self request w) in
  (length (List.filter is_success_message (added w w')) <= 1)%nat /\
  (length (List.filter is_error_message (added w w')) <= 1)%nat /\
  (length (List.filter is_message (added w w')) <= 1)%nat.
Proof.
  destruct o as [[|] f|[|] f|]; unfold_views; split_answers;
    solve_added; cbn; lia.
Qed.

(** C3, as stated, fails: a valid form posted to a [CreateView] that
    configures no [success_message] (the class default) is saved and
    redirected without any message. *)
Lemma valid_create_without_success_message_flashes_nothing :
  let self := Example.things CreateView.defaults in
  let request := Example.post_by "admin" "x" in
  let r := handle (ValidForm Create "x") Example.env self request Example.start in
  is_valid Example.env "x" = true /\
  fst r = inr (HttpResponseRedirect "/admin/things/") /\
  trace (snd r) = [FormSaved "x"; Reversed (Some "things:index") []; Redirected "/admin/things/"] /\
  length (List.filter is_message (added Example.start (snd r))) <> 1%nat.
Proof. vm_compute. split_and!; done. Qed.

(** C3, amended. A completed mutating request flashes no error message,
    and as for success messages: a completed deletion flashes exactly one;
    a completed valid form submission to [CreateView] or [EditView] flashes
    exactly one when the view configures [success_message] and none
    otherwise. *)
Theorem completed_mutation_messages (o : outcome) (env : collaborators) (self : view)
    (request : request_t) (w : world) (resp : response) (w' : world) :
  is_mutation o = true ->
  handle o env self request w = (inr resp, w') ->
  List.filter is_error_message (added w w') = [] /\
  length (List.filter is_success_message (added w w')) = messages_due o self /\
  length (List.filter is_message (added w w')) = messages_due o self.
Proof.
  unfold messages_due.
  destruct o as [[|] f|[|] f|]; intros Hm; try discriminate Hm; clear Hm;
    unfold_views; intros Hrun; split_answers; solve_added; cbn; done.
Qed.

Lemma completed_mutation_messages_witness :
  let self := Example.with_messages (Example.things EditView.defaults) in
  let request := Example.post_by "admin" "x" in
  let r := handle (ValidForm Edit "x") Example.env self request Example.start in
  is_mutation (ValidForm Edit "x") = true /\
  r = (inr (HttpResponseRedirect "/admin/things/"), snd r) /\
  List.filter is_error_message (added Example.start (snd r)) = [] /\
  length (List.filter is_success_message (added Example.start (snd r))) = 1%nat /\
  length (List.filter is_message (added Example.start (snd r))) = 1%nat.
Proof.
  intros self request r.
  assert (Hr : r = (inr (HttpResponseRedirect "/admin/things/"), snd r)) by (vm_compute; reflexivity).
  split; [reflexivity|]. split; [exact Hr|].
  exact (completed_mutation_messages (ValidForm Edit "x") Example.env self request
           Example.start _ _ eq_refl Hr).
Defined.

(** ** Redirect target and order of the steps: theorems *)

(** C5. A mutating request that succeeds (valid form in [CreateView] or
    [EditView], deletion in [DeleteView]) answers with a redirect to the URL
    that reversing the view's [index_url_name] gives. *)
Theorem success_redirects_to_index (o : outcome) (env : collaborators) (self : view)
    (request : request_t) (w : world) (resp : response) (w' : world) :
  is_mutation o = true ->
  handle o env self request w = (inr resp, w') ->
  exists url,
    url_table env (index_url_name self) [] = inr url /\
    resp = HttpResponseRedirect url /\
    Reversed (index_url_name self) [] ∈ added w w'.
Proof.
  destruct o as [[|] f|[|] f|]; intros Hm; try discriminate Hm; clear Hm;
    unfold_views; intros Hrun; split_answers; solve_added;
    eexists; split_and!; try done; set_solver.
Qed.

Lemma success_redirects_to_index_witness :
  let self := Example.things DeleteView.defaults in
  let request := Example.post_by "admin" "" in
  let r := handle Deletion Example.env self request Example.start in
  is_mutation Deletion = true /\
  r = (inr (HttpResponseRedirect "/admin/things/"), snd r) /\
  exists url,
    Example.urls (Some "things:index") [] = inr url /\
    HttpResponseRedirect "/admin/things/" = HttpResponseRedirect url /\
    Reversed (Some "things:index") [] ∈ added Example.start (snd r).
Proof.
  intros self request r.
  assert (Hr : r = (inr (HttpResponseRedirect "/admin/things/"), snd r)) by (vm_compute; reflexivity).
  split; [reflexivity|]. split; [exact Hr|].
  exact (success_redirects_to_index Deletion Example.env self request
           Example.start _ _ eq_refl Hr).
Defined.

(** C6. Every valid form submission to [CreateView] or [EditView] goes
    through the steps persist, flash (when a success message is configured,
    and only then), redirect, in this order, as far as it gets: the save of
    the submitted form is the first call made, and the steps taken are an
    initial part of that plan, the whole of it exactly when the request
    completes.  So nothing is saved after a message or a redirect.  A
    request completes whenever the save, the formatting and reversal for the
    message, and the reversal of the index URL succeed; when it completes,
    the calls made are exactly the save, the button URL's reversal and the
    message (if configured), the index URL's reversal and the redirect,
    which is the response. *)
Theorem valid_form_persists_then_messages_then_redirects (v : form_view)
    (env : collaborators) (self : view) (form : form) (w : world) :
  let r := form_valid_of v env self form w in
  let calls := added w (snd r) in
  head calls = Some (FormSaved form) /\
  (exists n,
     (1 <= n <= length (plan self))%nat /\
     steps_of calls = take n (plan self) /\
     (n = length (plan self) <-> exists resp, fst r = inr resp)) /\
  (forall object url,
     form_save env (trace w) form = inr object ->
     url_table env (index_url_name self) [] = inr url ->
     match success_message self with
     | None => True
     | Some template =>
         exists text edit_url,
           str_format env template (PyInstance object) = inr text /\
           url_table env (edit_url_name self) [obj_id object] = inr edit_url
     end ->
     fst r = inr (HttpResponseRedirect url)) /\
  (forall resp,
     fst r = inr resp ->
     exists object url between,
       form_save env (trace w) form = inr object /\
       self_object (snd r) = Some object /\
       calls = (FormSaved form :: between
                  ++ [Reversed (index_url_name self) []; Redirected url])%list /\
       resp = HttpResponseRedirect url /\
       List.filter is_save between = [] /\
       match success_message self with
       | None => between = []
       | Some template =>
           exists text edit_url,
             str_format env template (PyInstance object) = inr text /\
             url_table env (edit_url_name self) [obj_id object] = inr edit_url /\
             between = [Reversed (edit_url_name self) [obj_id object];
                        MessageAdded SUCCESS (Some text) [(edit_url, "Edit")]]
       end).
Proof.
  unfold plan, steps_of.
  destruct v; unfold_views; split_answers; solve_added; cbn [head].
  all: split; [reflexivity|].
  all: split;
    [ first [ exists 1%nat; cbn; split_and!; [lia|lia|reflexivity|];
              split; [discriminate|intros [? [=]]]
            | exists 2%nat; cbn; split_and!; [lia|lia|reflexivity|];
              split; [discriminate|intros [? [=]]]
            | exists 2%nat; cbn; split_and!; [lia|lia|reflexivity|];
              split; [by eexists|done]
            | exists 3%nat; cbn; split_and!; [lia|lia|reflexivity|];
              split; [by eexists|done] ]
    | ].
  all: split;
    [ intros object url Hsave Hurl Hmsg;
      repeat match goal with
             | H : exists _, _ |- _ => destruct H
             | H : _ /\ _ |- _ => destruct H
             end; congruence
    | ].
  all: intros resp [= <-].
  all: match goal with
       | H : success_message _ = Some _ |- _ => eexists _, _, [_; _]
       | H : success_message _ = None |- _ => eexists _, _, []
       end; cbn; split_and!; try done; eauto.
Qed.

(** A create view with messages, on the example installation. *)
Example valid_create_steps :
  let self := Example.with_messages (Example.things CreateView.defaults) in
  let r := form_valid_of Create Example.env self "x" Example.start in
  fst r = inr (HttpResponseRedirect "/admin/things/") /\
  trace (snd r) =
    [FormSaved "x"; Reversed (Some "things:edit") [Some 7];
     MessageAdded SUCCESS (Some "Thing saved.") [("/admin/things/edit/", "Edit")];
     Reversed (Some "things:index") []; Redirected "/admin/things/"].
Proof. vm_compute. done. Qed.

(** Even a valid submission that is cut short (the save fails, a URL name
    does not reverse) starts with the save and saves only once. *)
Lemma save_comes_first (v : form_view) (env : collaborators) (self : view)
    (form : form) (w : world) :
  exists rest,
    added w (snd (form_valid_of v env self form w)) = FormSaved form :: rest /\
    List.filter is_save rest = [].
Proof.
  destruct v; unfold_views; split_answers; solve_added; eexists; split; done.
Qed.

(** ** Invalid forms: theorems *)

(** C7, as stated, fails: an invalid form posted to a [CreateView] that
    configures no [error_message] (the class default) is rendered again
    without any flashed message. *)
Lemma invalid_create_without_error_message_flashes_nothing :
  let self := Example.things CreateView.defaults in
  let request := Example.post_by "admin" "" in
  let r := CreateView.super_dispatch Example.env self request Example.start in
  is_valid Example.env "" = false /\
  r = handle (InvalidForm Create "") Example.env self request
        (World [] None None ∅) /\
  (exists context, fst r = inr (TemplateResponse (template_name self) context)) /\
  trace (snd r) = [Rendered (Some "wagtailadmin/generic/create.html")] /\
  length (List.filter is_error_message (trace (snd r))) <> 1%nat.
Proof. vm_compute. split_and!; try done. by eexists. Qed.

(** C7, amended. An invalid form submission to [CreateView] or [EditView]
    always ends in the form being rendered again, with the submitted form
    (and so its inline errors) in the template context; on the way it
    flashes exactly one error message, the configured one, when the view
    configures [error_message], and no message otherwise. *)
Theorem invalid_form_rerenders (v : form_view) (env : collaborators) (self : view)
    (request : request_t) (form : form) (w : world) :
  exists context w',
    form_invalid_of v env self request form w
      = (inr (TemplateResponse (template_name self) context), w') /\
    context !! "form" = Some (PyForm form) /\
    last (added w w') = Some (Rendered (template_name self)) /\
    List.filter is_message (added w w') =
      match error_message self with
      | Some message => [MessageAdded ERROR (Some message) []]
      | None => []
      end.
Proof.
  destruct v; unfold_views; unfold super_get_context_data; split_answers;
    eexists _, _; (split; [reflexivity|]); solve_added;
    (split; [|split; reflexivity]).
  all: rewrite ?lookup_insert_ne by done;
    apply lookup_union_Some_l, lookup_singleton_eq.
Qed.

(** ** Template context: theorems *)

(** C8. [EditView.get_context_data] always returns a context whose
    ['can_delete'] entry is a one-element tuple around the permission flag,
    hence truthy whatever the flag, denial included; the ['can_add'] entry
    of [IndexView.get_context_data] is the flag itself, true exactly when
    there is no policy or the policy grants ['add']. *)
Theorem can_delete_is_a_tuple_can_add_a_flag (env : collaborators) (self : view)
    (request : request_t) (kwargs : gmap string pyval) (w : world) :
  (exists context w' flag,
     EditView.get_context_data env self request kwargs w = (inr context, w') /\
     context !! "can_delete" = Some (PyTuple [PyBool flag]) /\
     truthy (PyTuple [PyBool flag]) = true /\
     flag = match permission_policy self with
            | None => true
            | Some p => has_permission p (req_user request) "delete"
            end) /\
  (exists context w' flag,
     IndexView.get_context_data env self request kwargs w = (inr context, w') /\
     context !! "can_add" = Some (PyBool flag) /\
     truthy (PyBool flag) = flag /\
     (flag = true <->
        permission_policy self = None \/
        exists p, permission_policy self = Some p /\
                  has_permission p (req_user request) "add" = true)).
Proof.
  split.
  - unfold EditView.get_context_data, bind, ret, user_has_permission, bind, ret, log.
    destruct (permission_policy self) as [p|]; cbn [fst snd];
      eexists _, _, _; (split; [reflexivity|]);
      (split; [apply lookup_insert_eq|]); done.
  - unfold IndexView.get_context_data, bind, ret, user_has_permission, bind, ret, log.
    destruct (permission_policy self) as [p|]; cbn [fst snd];
      eexists _, _, _; (split; [reflexivity|]);
      (split; [apply lookup_insert_eq|]); (split; [done|]).
    + split; [intros H; right; eauto|].
      intros [?|(p' & [= <-] & H)]; done.
    + split; [by left|done].
Qed.

(** On the example installation, a user the policy refuses still gets a
    truthy ['can_delete']. *)
Example can_delete_truthy_for_refused_user :
  let self := Example.things EditView.defaults in
  let r := EditView.get_context_data Example.env self (Example.post_by "bob" "") ∅ Example.start in
  has_permission Example.admins_only "bob" "delete" = false /\
  exists context,
    fst r = inr context /\
    truthy <$> (context !! "can_delete") = Some true.
Proof. split; [done|]. eexists. split; [reflexivity|]. vm_compute. done. Qed.

(** ** Deletion: theorems *)

(** C10. Once the deletion itself has completed (the framework's [delete]
    has fetched the object, deleted it, which resets its primary key, and
    built the redirect, all without a message), [DeleteView.delete] calls
    [messages.success] with what [get_success_message] returns, under no
    condition on [success_message]: with [success_message] [None] the
    message is flashed with text [None]; with a template it is flashed with
    the template formatted with the deleted object, unless that formatting
    raises, in which case so does [delete].  So whenever [delete] completes
    it has flashed exactly one success message, after the deletion, and
    returns the redirect; the text is [None] when [success_message] is. *)
Theorem delete_always_flashes (env : collaborators) (self : view) (request : request_t)
    (w : world) (resp : response) (w1 : world) :
  Framework.delete env (DeleteView.get_object env request)
    (DeleteView.get_success_url env self) w = (inr resp, w1) ->
  exists fetched,
    self_object w1 = Some (deleted fetched) /\
    ObjectDeleted fetched ∈ added w w1 /\
    List.filter is_message (added w w1) = [] /\
    match success_message self with
    | None =>
        DeleteView.delete env self request w
          = (inr resp, extend w1 [MessageAdded SUCCESS None []])
    | Some template =>
        match str_format env template (PyInstance (deleted fetched)) with
        | inr text =>
            DeleteView.delete env self request w
              = (inr resp, extend w1 [MessageAdded SUCCESS (Some text) []])
        | inl e => DeleteView.delete env self request w = (inl e, w1)
        end
    end /\
    (forall resp' w',
       DeleteView.delete env self request w = (inr resp', w') ->
       exists text,
         resp' = resp /\
         w' = extend w1 [MessageAdded SUCCESS text []] /\
         fst (DeleteView.get_success_message env self w1) = inr text /\
         (success_message self = None -> text = None)).
Proof.
  intros Hdel.
  assert (Hrun : DeleteView.delete env self request w
                 = (let* message := DeleteView.get_success_message env self in
                    messages.success message [] >> ret resp) w1)
    by exact (bind_inr _ _ _ _ _ Hdel).
  revert Hrun. generalize (DeleteView.delete env self request w). intros run ->.
  revert Hdel. unfold_views. intros Hdel.
  split_answers; solve_added; eexists;
    (split; [reflexivity|]); (split; [set_solver|]); (split; [done|]);
    repeat match goal with
           | H : str_format _ _ _ = _ |- _ => rewrite H
           end;
    (split; [reflexivity|]); intros resp' w' Hrun; simplify_eq;
    eexists; split_and!; try done.
Qed.

Lemma delete_always_flashes_witness :
  let self := Example.things DeleteView.defaults in
  let request := Example.post_by "admin" "" in
  let r := Framework.delete Example.env (DeleteView.get_object Example.env request)
             (DeleteView.get_success_url Example.env self) Example.start in
  r = (inr (HttpResponseRedirect "/admin/things/"), snd r) /\
  exists fetched,
    self_object (snd r) = Some (deleted fetched) /\
    ObjectDeleted fetched ∈ added Example.start (snd r) /\
    List.filter is_message (added Example.start (snd r)) = [] /\
    DeleteView.delete Example.env self request Example.start
      = (inr (HttpResponseRedirect "/admin/things/"),
         extend (snd r) [MessageAdded SUCCESS None []]) /\
    (forall resp' w',
       DeleteView.delete Example.env self request Example.start = (inr resp', w') ->
       exists text,
         resp' = HttpResponseRedirect "/admin/things/" /\
         w' = extend (snd r) [MessageAdded SUCCESS text []] /\
         fst (DeleteView.get_success_message Example.env self (snd r)) = inr text /\
         (success_message self = None -> text = None)).
Proof.
  intros self request r.
  assert (Hr : r = (inr (HttpResponseRedirect "/admin/things/"), snd r)) by (vm_compute; reflexivity).
  split; [exact Hr|].
  exact (delete_always_flashes Example.env self request Example.start _ _ Hr).
Defined.

(** A template that does not format: the row is deleted, the request
    raises, no message is flashed. *)
Example delete_with_unformattable_message :
  let self := View (Some Example.admins_only) (Some "delete") None (Some "things:index")
                None None None None (Some "{name} deleted.") None in
  let r := DeleteView.delete Example.env self (Example.post_by "admin" "") Example.start in
  fst r = inl KeyError /\
  trace (snd r) =
    [ObjectFetched 7; Reversed (Some "things:index") [];
     ObjectDeleted (Instance (Some 7) "seven"); Redirected "/admin/things/"] /\
  self_object (snd r) = Some (Instance None "seven").
Proof. vm_compute. done. Qed.

(** The whole deletion request on the example installation: check, fetch,
    reverse, delete, redirect, and then the message, whose text is [None]. *)
Example delete_request_trace :
  let self := Example.things DeleteView.defaults in
  let r := DeleteView.dispatch Example.env self (Example.post_by "admin" "") Example.start in
  fst r = inr (HttpResponseRedirect "/admin/things/") /\
  trace (snd r) =
    [UserHasPermission "admin" "delete"; ObjectFetched 7;
     Reversed (Some "things:index") []; ObjectDeleted (Instance (Some 7) "seven");
     Redirected "/admin/things/"; MessageAdded SUCCESS None []].
Proof. vm_compute. done. Qed.

(** A refused user posting to any of the three mutating views changes nothing. *)
Example refused_user_changes_nothing :
  let refused := UserHasPermission "bob" in
  CreateView.dispatch Example.env (Example.with_messages (Example.things CreateView.defaults))
      (Example.post_by "bob" "x") Example.start
    = (inl PermissionDenied, extend Example.start [refused "add"]) /\
  EditView.dispatch Example.env (Example.with_messages (Example.things EditView.defaults))
      (Example.post_by "bob" "x") Example.start
    = (inl PermissionDenied, extend Example.start [refused "change"]) /\
  DeleteView.dispatch Example.env (Example.with_messages (Example.things DeleteView.defaults))
      (Example.post_by "bob" "x") Example.start
    = (inl PermissionDenied, extend Example.start [refused "delete"]).
Proof. vm_compute. done. Qed.

(** ** Beyond the claims: looking the object up *)

Ltac unfold_get_object :=
  cbv [EditView.get_object DeleteView.get_object super_get_object
       bind ret raise log lift get_kwargs set_kwarg extend].

(** X1. When the URL supplied a ['pk'] keyword argument, [get_object] of
    [EditView] and of [DeleteView] fetches that key: the positional
    arguments are not looked at and [self.kwargs] stays as it is. *)
Theorem get_object_prefers_kwargs_pk (env : collaborators) (request : request_t)
    (w : world) (pk : Z) :
  self_kwargs w !! "pk" = Some pk ->
  EditView.get_object env request w
    = (queryset_get env (trace w) pk, extend w [ObjectFetched pk]) /\
  DeleteView.get_object env request w
    = (queryset_get env (trace w) pk, extend w [ObjectFetched pk]).
Proof.
  intros Hpk. split; unfold_get_object; rewrite !Hpk;
    destruct (queryset_get env (trace w) pk); reflexivity.
Qed.

Lemma get_object_prefers_kwargs_pk_witness :
  let w := World [] None None {[ "pk" := 7 ]} in
  let request := Request "admin" GET "" [99] in
  self_kwargs w !! "pk" = Some 7 /\
  EditView.get_object Example.env request w
    = (queryset_get Example.env (trace w) 7, extend w [ObjectFetched 7]) /\
  DeleteView.get_object Example.env request w
    = (queryset_get Example.env (trace w) 7, extend w [ObjectFetched 7]).
Proof.
  intros w request.
  assert (Hpk : self_kwargs w !! "pk" = Some 7) by (vm_compute; reflexivity).
  split; [exact Hpk|].
  exact (get_object_prefers_kwargs_pk Example.env request w 7 Hpk).
Defined.

(** X2. Without a ['pk'] keyword argument, [get_object] takes the first
    positional argument as the key: it stores it under ['pk'] in
    [self.kwargs], leaving every other entry alone, and fetches by it. *)
Theorem get_object_falls_back_to_first_arg (env : collaborators) (request : request_t)
    (w : world) (arg0 : Z) (rest : list Z) :
  self_kwargs w !! "pk" = None ->
  req_args request = arg0 :: rest ->
  let w' := World (trace w ++ [ObjectFetched arg0]) (self_form w) (self_object w)
              (<[ "pk" := arg0 ]> (self_kwargs w)) in
  EditView.get_object env request w = (queryset_get env (trace w) arg0, w') /\
  DeleteView.get_object env request w = (queryset_get env (trace w) arg0, w') /\
  (forall k, k <> "pk" -> self_kwargs w' !! k = self_kwargs w !! k).
Proof.
  intros Hpk Hargs. split_and!.
  1,2: unfold_get_object; rewrite !Hpk, Hargs; cbn [self_kwargs trace];
    rewrite lookup_insert_eq; cbn [trace];
    destruct (queryset_get env (trace w) arg0); reflexivity.
  intros k Hk. cbn. by rewrite lookup_insert_ne.
Qed.

Lemma get_object_falls_back_to_first_arg_witness :
  let request := Example.post_by "admin" "" in
  let w' := World [ObjectFetched 7] None None {[ "pk" := 7 ]} in
  self_kwargs Example.start !! "pk" = None /\
  req_args request = [7] /\
  EditView.get_object Example.env request Example.start
    = (inr (Instance (Some 7) "seven"), w') /\
  DeleteView.get_object Example.env request Example.start
    = (inr (Instance (Some 7) "seven"), w') /\
  (forall k, k <> "pk" -> self_kwargs w' !! k = self_kwargs Example.start !! k).
Proof.
  intros request w'.
  assert (Hpk : self_kwargs Example.start !! "pk" = None) by (vm_compute; reflexivity).
  split; [exact Hpk|]. split; [reflexivity|].
  exact (get_object_falls_back_to_first_arg Example.env request Example.start 7 []
           Hpk eq_refl).
Defined.

(** X3. With neither a ['pk'] keyword argument nor any positional argument,
    [get_object] raises [IndexError] (from [self.args[0]]) before any query
    is made; nothing is recorded or changed. *)
Theorem get_object_without_key_raises (env : collaborators) (request : request_t)
    (w : world) :
  self_kwargs w !! "pk" = None ->
  req_args request = [] ->
  EditView.get_object env request w = (inl IndexError, w) /\
  DeleteView.get_object env request w = (inl IndexError, w).
Proof.
  intros Hpk Hargs. split; unfold_get_object; rewrite !Hpk, Hargs; reflexivity.
Qed.

Lemma get_object_without_key_raises_witness :
  let request := Request "admin" GET "" [] in
  self_kwargs Example.start !! "pk" = None /\
  req_args request = [] /\
  EditView.get_object Example.env request Example.start = (inl IndexError, Example.start) /\
  DeleteView.get_object Example.env request Example.start = (inl IndexError, Example.start).
Proof.
  intros request.
  assert (Hpk : self_kwargs Example.start !! "pk" = None) by (vm_compute; reflexivity).
  split; [exact Hpk|]. split; [reflexivity|].
  exact (get_object_without_key_raises Example.env request Example.start Hpk eq_refl).
Defined.

(** No method of the view removes or replaces a ['pk'] that is in
    [self.kwargs]. *)
Lemma after_call_keeps_pk (env : collaborators) (self : view) (w : world) (c : call)
    (pk : Z) :
  self_kwargs w !! "pk" = Some pk ->
  self_kwargs (after_call env self w c) !! "pk" = Some pk.
Proof.
  intros Hpk. destruct c as [[[|] f|[|] f|] request|request|request kwargs| |];
    cbn [after_call].
  all: cbv [EditView.get_edit_url EditView.get_delete_url]; unfold_views;
    rewrite ?Hpk; split_answers; done.
Qed.

Lemma after_calls_keep_pk (env : collaborators) (self : view) (cs : list call)
    (w : world) (pk : Z) :
  self_kwargs w !! "pk" = Some pk ->
  self_kwargs (after_calls env self w cs) !! "pk" = Some pk.
Proof.
  revert w. induction cs as [|c cs IH]; intros w Hpk; [done|].
  cbn. apply IH. by apply after_call_keeps_pk.
Qed.

(** X4. Once [get_object] has returned an object, the key it used is
    pinned in [self.kwargs] under ['pk'], and no entry that was there has
    been changed.  Whatever methods of the view are called afterwards, in
    any number and order (the form handlers, [delete], [get_object],
    [get_context_data], the URL helpers), the key stays, and a later
    [get_object], whatever positional arguments it sees, asks the database
    for that same key; what it gets is what the database then answers. *)
Theorem get_object_pins_the_key (env : collaborators) (self : view)
    (request : request_t) (w : world) (object : instance) (w' : world) :
  EditView.get_object env request w = (inr object, w') ->
  exists pk,
    self_kwargs w' !! "pk" = Some pk /\
    queryset_get env (trace w) pk = inr object /\
    (forall k v, self_kwargs w !! k = Some v -> self_kwargs w' !! k = Some v) /\
    (forall (cs : list call) (request' : request_t),
       let w'' := after_calls env self w' cs in
       self_kwargs w'' !! "pk" = Some pk /\
       EditView.get_object env request' w''
         = (queryset_get env (trace w'') pk, extend w'' [ObjectFetched pk]) /\
       DeleteView.get_object env request' w''
         = (queryset_get env (trace w'') pk, extend w'' [ObjectFetched pk])).
Proof.
  intros Hrun.
  assert (Hlater : forall pk, self_kwargs w' !! "pk" = Some pk ->
            forall (cs : list call) (request' : request_t),
              let w'' := after_calls env self w' cs in
              self_kwargs w'' !! "pk" = Some pk /\
              EditView.get_object env request' w''
                = (queryset_get env (trace w'') pk, extend w'' [ObjectFetched pk]) /\
              DeleteView.get_object env request' w''
                = (queryset_get env (trace w'') pk, extend w'' [ObjectFetched pk])).
  { intros pk Hpk cs request' w''.
    assert (Hpk'' : self_kwargs w'' !! "pk" = Some pk) by by apply after_calls_keep_pk.
    split; [done|]. by apply get_object_prefers_kwargs_pk. }
  destruct (self_kwargs w !! "pk") as [pk|] eqn:Hpk.
  - destruct (get_object_prefers_kwargs_pk env request w pk Hpk) as [He _].
    rewrite He in Hrun. injection Hrun as Hq <-.
    exists pk. split_and!; try done. by apply Hlater.
  - destruct (req_args request) as [|arg0 rest] eqn:Hargs.
    + destruct (get_object_without_key_raises env request w Hpk Hargs) as [He _].
      rewrite He in Hrun. discriminate Hrun.
    + destruct (get_object_falls_back_to_first_arg env request w arg0 rest Hpk Hargs)
        as (He & _ & _).
      rewrite He in Hrun. injection Hrun as Hq <-.
      exists arg0. cbn [self_kwargs]. split_and!.
      * apply lookup_insert_eq.
      * done.
      * intros k v Hk. rewrite lookup_insert_ne; [done|]. intros <-. congruence.
      * apply Hlater. apply lookup_insert_eq.
Qed.

Lemma get_object_pins_the_key_witness :
  let self := Example.things DeleteView.defaults in
  let request := Example.post_by "admin" "" in
  let w' := World [ObjectFetched 7] None None {[ "pk" := 7 ]} in
  EditView.get_object Example.env request Example.start
    = (inr (Instance (Some 7) "seven"), w') /\
  exists pk,
    self_kwargs w' !! "pk" = Some pk /\
    queryset_get Example.env (trace Example.start) pk = inr (Instance (Some 7) "seven") /\
    (forall k v, self_kwargs Example.start !! k = Some v -> self_kwargs w' !! k = Some v) /\
    (forall (cs : list call) (request' : request_t),
       let w'' := after_calls Example.env self w' cs in
       self_kwargs w'' !! "pk" = Some pk /\
       EditView.get_object Example.env request' w''
         = (queryset_get Example.env (trace w'') pk, extend w'' [ObjectFetched pk]) /\
       DeleteView.get_object Example.env request' w''
         = (queryset_get Example.env (trace w'') pk, extend w'' [ObjectFetched pk])).
Proof.
  intros self request w'.
  assert (Hr : EditView.get_object Example.env request Example.start
               = (inr (Instance (Some 7) "seven"), w')) by (vm_compute; reflexivity).
  split; [exact Hr|].
  exact (get_object_pins_the_key Example.env self request Example.start _ _ Hr).
Defined.

(** On the example installation: the object is fetched, deleted, and asked
    for again with other positional arguments; the same key is looked up,
    and the row is gone. *)
Example get_object_after_delete :
  let self := Example.things DeleteView.defaults in
  let request := Example.post_by "admin" "" in
  let w' := snd (EditView.get_object Example.env request Example.start) in
  let w'' := after_calls Example.env self w' [Handle Deletion request] in
  let r := EditView.get_object Example.env (Request "admin" GET "" [99]) w'' in
  fst r = inl Http404 /\ last (trace (snd r)) = Some (ObjectFetched 7).
Proof. vm_compute. done. Qed.

(** ** Beyond the claims: what the permission mixin asks *)

(** X5. When the policy refuses [permission_required], [dispatch] raises at
    once: that check is the only call made, and [user_has_any_permission]
    is not consulted even when [any_permission_required] is set too. *)
Theorem refused_permission_skips_any_check {A} (self : view) (request : request_t)
    (super_dispatch : M A) (w : world) (p : policy) (a : action) :
  permission_policy self = Some p ->
  permission_required self = Some a ->
  has_permission p (req_user request) a = false ->
  PermissionCheckedMixin.dispatch self request super_dispatch w
    = (inl PermissionDenied, extend w [UserHasPermission (req_user request) a]).
Proof.
  intros Hp Ha Hno.
  pose proof (dispatch_cases self request super_dispatch w) as H. simpl in H.
  rewrite Hp, Ha in H.
  destruct (any_permission_required self); by rewrite Hno in H.
Qed.

Lemma refused_permission_skips_any_check_witness :
  let self := View (Some Example.admins_only) (Some "change") (Some ["add"; "delete"])
                None None None None None None None in
  let request := Example.post_by "bob" "x" in
  permission_policy self = Some Example.admins_only /\
  permission_required self = Some "change" /\
  has_permission Example.admins_only (req_user request) "change" = false /\
  PermissionCheckedMixin.dispatch self request (ret HttpResponseNotAllowed) Example.start
    = (inl PermissionDenied, extend Example.start [UserHasPermission "bob" "change"]).
Proof.
  intros self request. do 3 (split; [reflexivity|]).
  exact (refused_permission_skips_any_check self request (ret HttpResponseNotAllowed)
           Example.start Example.admins_only "change" eq_refl eq_refl eq_refl).
Defined.

(** X6. A view that names no permission at all ([permission_required] and
    [any_permission_required] both [None]) is open to everybody, policy or
    no policy: [dispatch] is the base view and the policy is never asked. *)
Theorem no_required_permission_no_check {A} (self : view) (request : request_t)
    (super_dispatch : M A) (w : world) :
  permission_required self = None ->
  any_permission_required self = None ->
  PermissionCheckedMixin.dispatch self request super_dispatch w = super_dispatch w.
Proof.
  intros Ha Hl.
  pose proof (dispatch_cases self request super_dispatch w) as H. simpl in H.
  rewrite Ha, Hl in H. by destruct (permission_policy self).
Qed.

Lemma no_required_permission_no_check_witness :
  let self := View (Some Example.admins_only) None None None None None None None None None in
  let request := Example.post_by "bob" "x" in
  permission_required self = None /\
  any_permission_required self = None /\
  PermissionCheckedMixin.dispatch self request (ret HttpResponseNotAllowed) Example.start
    = ret HttpResponseNotAllowed Example.start.
Proof.
  intros self request. do 2 (split; [reflexivity|]).
  exact (no_required_permission_no_check self request (ret HttpResponseNotAllowed)
           Example.start eq_refl eq_refl).
Defined.

(** X7. With their class-level permission attributes left as they are, the
    three mutating views ask the policy one question each before anything
    else: [CreateView] for ['add'], [EditView] for ['change'], [DeleteView]
    for ['delete'].  A yes hands the request to the base view, a no raises
    [PermissionDenied]. *)
Theorem mutating_views_required_permission (env : collaborators) (self : view)
    (request : request_t) (w : world) (p : policy) :
  permission_policy self = Some p ->
  (same_permissions self CreateView.defaults ->
   CreateView.dispatch env self request w
     = asks_first p (req_user request) "add" w (CreateView.super_dispatch env self request)) /\
  (same_permissions self EditView.defaults ->
   EditView.dispatch env self request w
     = asks_first p (req_user request) "change" w (EditView.super_dispatch env self request)) /\
  (same_permissions self DeleteView.defaults ->
   DeleteView.dispatch env self request w
     = asks_first p (req_user request) "delete" w (DeleteView.super_dispatch env self request)).
Proof.
  intros Hp.
  unfold CreateView.dispatch, EditView.dispatch, DeleteView.dispatch, asks_first.
  split_and!; intros [Ha Hl];
    match goal with
    | |- PermissionCheckedMixin.dispatch _ _ ?k _ = _ =>
        pose proof (dispatch_cases self request k w) as H
    end; simpl in H; rewrite Hp, Ha, Hl in H; exact H.
Qed.

Lemma mutating_views_required_permission_witness :
  let self := Example.things EditView.defaults in
  let request := Example.post_by "bob" "x" in
  permission_policy self = Some Example.admins_only /\
  same_permissions self EditView.defaults /\
  EditView.dispatch Example.env self request Example.start
    = asks_first Example.admins_only "bob" "change" Example.start
        (EditView.super_dispatch Example.env self request).
Proof.
  intros self request.
  assert (Hs : same_permissions self EditView.defaults) by (split; reflexivity).
  split; [reflexivity|]. split; [exact Hs|].
  exact (proj1 (proj2 (mutating_views_required_permission Example.env self request
                         Example.start Example.admins_only eq_refl)) Hs).
Defined.

(** X8. With its class-level attributes left as they are, [IndexView] asks
    the policy one question, whether the user has any of ['add'],
    ['change'], ['delete']; no single permission is asked for.  A yes hands
    the request to the base view, a no raises [PermissionDenied]. *)
Theorem index_view_requires_any_permission {A} (self : view) (request : request_t)
    (super_dispatch : M A) (w : world) (p : policy) :
  permission_policy self = Some p ->
  permission_required self = permission_required IndexView.defaults ->
  any_permission_required self = any_permission_required IndexView.defaults ->
  let actions := ["add"; "change"; "delete"] in
  let asked := extend w [UserHasAnyPermission (req_user request) actions] in
  PermissionCheckedMixin.dispatch self request super_dispatch w =
    if has_any_permission p (req_user request) actions then super_dispatch asked
    else (inl PermissionDenied, asked).
Proof.
  intros Hp Ha Hl.
  pose proof (dispatch_cases self request super_dispatch w) as H. simpl in H.
  rewrite Hp, Ha, Hl in H. exact H.
Qed.

Lemma index_view_requires_any_permission_witness :
  let self := Example.things IndexView.defaults in
  let request := Request "admin" GET "" [] in
  permission_policy self = Some Example.admins_only /\
  permission_required self = permission_required IndexView.defaults /\
  any_permission_required self = any_permission_required IndexView.defaults /\
  PermissionCheckedMixin.dispatch self request (ret HttpResponseNotAllowed) Example.start
    = ret HttpResponseNotAllowed
        (extend Example.start [UserHasAnyPermission "admin" ["add"; "change"; "delete"]]).
Proof.
  intros self request. do 3 (split; [reflexivity|]).
  exact (index_view_requires_any_permission self request (ret HttpResponseNotAllowed)
           Example.start Example.admins_only eq_refl eq_refl eq_refl).
Defined.

(** ** Beyond the claims: valid forms that do not get through *)

Ltac step_world := cbn [fst snd trace self_form self_object self_kwargs].

(** X9. When saving the form fails, [form_valid] of either view fails with
    the same exception right after the attempt: no message, no URL
    reversal, no redirect.  The form has been stored on the view;
    [self.object] is what it was. *)
Theorem failed_save_stops_form_valid (v : form_view) (env : collaborators) (self : view)
    (form : form) (w : world) (e : exn) :
  form_save env (trace w) form = inl e ->
  let r := form_valid_of v env self form w in
  fst r = inl e /\
  added w (snd r) = [FormSaved form] /\
  self_form (snd r) = Some form /\
  self_object (snd r) = self_object w.
Proof.
  intros Hsave. destruct v; unfold_views; step_world; rewrite Hsave; step_world;
    solve_added; done.
Qed.

Lemma failed_save_stops_form_valid_witness :
  let env := {|
    url_table := Example.urls;
    is_valid := fun _ => true;
    construct_instance := fun _ object => object;
    form_save := fun _ _ => inl DatabaseError;
    queryset_get := fun _ _ => inl Http404;
    model_delete := fun _ _ => inr tt;
    str_format := fun template _ => inr template;
    base_context := ∅;
    registry := ∅
  |} in
  let self := Example.with_messages (Example.things CreateView.defaults) in
  let r := form_valid_of Create env self "x" Example.start in
  form_save env (trace Example.start) "x" = inl DatabaseError /\
  fst r = inl DatabaseError /\
  added Example.start (snd r) = [FormSaved "x"] /\
  self_form (snd r) = Some "x" /\
  self_object (snd r) = self_object Example.start.
Proof.
  intros env self r. split; [reflexivity|].
  exact (failed_save_stops_form_valid Create env self "x" Example.start DatabaseError eq_refl).
Defined.

(** X10. The message is formatted, and then the URL of its "Edit" button
    reversed, after the save.  So when a success message is configured and
    formats, but [edit_url_name] does not reverse for the saved object,
    [form_valid] fails with the reversal's exception although the object
    has been saved: no message is flashed and no redirect is produced. *)
Theorem unreversible_edit_url_fails_after_save (v : form_view) (env : collaborators)
    (self : view) (form : form) (w : world) (object : instance)
    (template text : string) (e : exn) :
  form_save env (trace w) form = inr object ->
  success_message self = Some template ->
  str_format env template (PyInstance object) = inr text ->
  url_table env (edit_url_name self) [obj_id object] = inl e ->
  let r := form_valid_of v env self form w in
  fst r = inl e /\
  added w (snd r) = [FormSaved form; Reversed (edit_url_name self) [obj_id object]] /\
  self_object (snd r) = Some object.
Proof.
  intros Hsave Hmsg Htext Hurl. destruct v; unfold_views; step_world;
    rewrite Hsave, Hmsg; step_world; rewrite Htext; step_world;
    rewrite Hurl; step_world; solve_added; done.
Qed.

Lemma unreversible_edit_url_fails_after_save_witness :
  let self := Example.with_messages CreateView.defaults in
  let r := form_valid_of Create Example.env self "x" Example.start in
  form_save Example.env (trace Example.start) "x" = inr (Instance (Some 7) "x") /\
  success_message self = Some "Thing saved." /\
  str_format Example.env "Thing saved." (PyInstance (Instance (Some 7) "x"))
    = inr "Thing saved." /\
  url_table Example.env (edit_url_name self) [Some 7] = inl NoReverseMatch /\
  fst r = inl NoReverseMatch /\
  added Example.start (snd r) = [FormSaved "x"; Reversed None [Some 7]] /\
  self_object (snd r) = Some (Instance (Some 7) "x").
Proof.
  intros self r. do 4 (split; [reflexivity|]).
  exact (unreversible_edit_url_fails_after_save Create Example.env self "x" Example.start
           (Instance (Some 7) "x") "Thing saved." "Thing saved." NoReverseMatch
           eq_refl eq_refl eq_refl eq_refl).
Defined.

(** X11. The index URL is reversed last.  So when [index_url_name] does not
    reverse (it is [None] unless a subclass sets it), and what comes before
    goes through (no success message is configured, or it formats and its
    button URL reverses), [form_valid] fails with the reversal's exception
    after the object has been saved and after the success message, if one
    is configured, has been flashed; no redirect is produced. *)
Theorem unreversible_index_url_fails_after_save (v : form_view) (env : collaborators)
    (self : view) (form : form) (w : world) (object : instance) (e : exn) :
  form_save env (trace w) form = inr object ->
  url_table env (index_url_name self) [] = inl e ->
  match success_message self with
  | None => True
  | Some template =>
      exists text edit_url,
        str_format env template (PyInstance object) = inr text /\
        url_table env (edit_url_name self) [obj_id object] = inr edit_url
  end ->
  let r := form_valid_of v env self form w in
  fst r = inl e /\
  head (added w (snd r)) = Some (FormSaved form) /\
  last (added w (snd r)) = Some (Reversed (index_url_name self) []) /\
  length (List.filter is_message (added w (snd r))) = messages_due (ValidForm v form) self /\
  steps_of (added w (snd r)) = List.removelast (plan self) /\
  self_object (snd r) = Some object.
Proof.
  intros Hsave Hurl Hmsg. unfold messages_due, plan.
  destruct (success_message self) as [template|] eqn:Htemplate.
  - destruct Hmsg as (text & edit_url & Htext & Hedit).
    destruct v; unfold_views; step_world; rewrite Hsave, ?Htemplate; step_world;
      rewrite Htext; step_world; rewrite Hedit; step_world; rewrite Hurl; step_world;
      solve_added; done.
  - destruct v; unfold_views; step_world; rewrite Hsave, ?Htemplate; step_world;
      rewrite Hurl; step_world; solve_added; done.
Qed.

Lemma unreversible_index_url_fails_after_save_witness :
  let self := CreateView.defaults in
  let r := form_valid_of Create Example.env self "x" Example.start in
  form_save Example.env (trace Example.start) "x" = inr (Instance (Some 7) "x") /\
  url_table Example.env (index_url_name self) [] = inl NoReverseMatch /\
  fst r = inl NoReverseMatch /\
  head (added Example.start (snd r)) = Some (FormSaved "x") /\
  last (added Example.start (snd r)) = Some (Reversed None []) /\
  length (List.filter is_message (added Example.start (snd r))) = 0%nat /\
  steps_of (added Example.start (snd r)) = [Persist] /\
  self_object (snd r) = Some (Instance (Some 7) "x").
Proof.
  intros self r. do 2 (split; [reflexivity|]).
  exact (unreversible_index_url_fails_after_save Create Example.env self "x" Example.start
           (Instance (Some 7) "x") NoReverseMatch eq_refl eq_refl I).
Defined.

(** X20. The success message is formatted right after the save.  So when a
    success message is configured and formatting it with the saved object
    raises, [form_valid] fails with that exception although the object has
    been saved: no URL is reversed, no message is flashed and no redirect
    is produced. *)
Theorem unformattable_message_fails_after_save (v : form_view) (env : collaborators)
    (self : view) (form : form) (w : world) (object : instance) (template : string)
    (e : exn) :
  form_save env (trace w) form = inr object ->
  success_message self = Some template ->
  str_format env template (PyInstance object) = inl e ->
  let r := form_valid_of v env self form w in
  fst r = inl e /\
  added w (snd r) = [FormSaved form] /\
  self_object (snd r) = Some object.
Proof.
  intros Hsave Hmsg Htext. destruct v; unfold_views; step_world;
    rewrite Hsave, Hmsg; step_world; rewrite Htext; step_world; solve_added; done.
Qed.

Lemma unformattable_message_fails_after_save_witness :
  let self := View None (Some "change") None (Some "things:index") None
                (Some "things:edit") None None (Some "{name} saved.") None in
  let r := form_valid_of Edit Example.env self "x" Example.start in
  form_save Example.env (trace Example.start) "x" = inr (Instance (Some 7) "x") /\
  success_message self = Some "{name} saved." /\
  str_format Example.env "{name} saved." (PyInstance (Instance (Some 7) "x")) = inl KeyError /\
  fst r = inl KeyError /\
  added Example.start (snd r) = [FormSaved "x"] /\
  self_object (snd r) = Some (Instance (Some 7) "x").
Proof.
  intros self r. do 3 (split; [reflexivity|]).
  exact (unformattable_message_fails_after_save Edit Example.env self "x" Example.start
           (Instance (Some 7) "x") "{name} saved." KeyError eq_refl eq_refl eq_refl).
Defined.

(** ** Beyond the claims: what the form handlers leave on the view *)

(** X12. [form_valid] and [form_invalid] of both views store the form they
    were given in [self.form], whether they go on to succeed or to raise,
    and never touch [self.kwargs]. *)
Theorem form_handlers_store_the_form (v : form_view) (env : collaborators) (self : view)
    (request : request_t) (form : form) (w : world) :
  let valid := snd (form_valid_of v env self form w) in
  let invalid := snd (form_invalid_of v env self request form w) in
  self_form valid = Some form /\ self_kwargs valid = self_kwargs w /\
  self_form invalid = Some form /\ self_kwargs invalid = self_kwargs w.
Proof.
  destruct v; unfold_views; split_answers; done.
Qed.

(** X13. [form_invalid] of both views never saves, never reverses a URL and
    never redirects, and leaves [self.object] alone: of the mutating actions
    only the error message can occur. *)
Theorem form_invalid_changes_nothing (v : form_view) (env : collaborators) (self : view)
    (request : request_t) (form : form) (w : world) :
  let w' := snd (form_invalid_of v env self request form w) in
  List.filter is_save (added w w') = [] /\
  List.filter is_redirect_step (added w w') = [] /\
  List.filter is_mutating (added w w') = List.filter is_error_message (added w w') /\
  self_object w' = self_object w.
Proof.
  destruct v; unfold_views; split_answers; solve_added; done.
Qed.

(** X14. [EditView.form_valid] is [CreateView.form_valid]: on every view
    configuration, form and state the two methods make the same calls, leave
    the same state and give the same outcome.  (The edit view formats
    [self.object] where the create view formats the saved instance, and by
    then the two are the same object.) *)
Theorem edit_form_valid_is_create_form_valid (env : collaborators) (self : view)
    (form : form) (w : world) :
  EditView.form_valid env self form w = CreateView.form_valid env self form w.
Proof.
  unfold_views; step_world.
  destruct (form_save env (trace w) form) as [e|object]; [done|]. step_world.
  destruct (success_message self) as [template|]; [|done]. step_world.
  destruct (str_format env template (PyInstance object)); [done|]. step_world.
  destruct (url_table env (edit_url_name self) [obj_id object]); done.
Qed.

(** X15. After [EditView.form_valid] has completed, the view's URL helpers
    speak of the object that was just saved: [get_edit_url] and
    [get_delete_url] reverse their URL names with that object's id as the
    only argument.  In particular the "Edit" button of the flashed success
    message leads where [get_edit_url] leads. *)
Theorem edit_urls_follow_the_saved_object (env : collaborators) (self : view)
    (form : form) (w : world) (resp : response) (w' : world) :
  EditView.form_valid env self form w = (inr resp, w') ->
  exists object,
    form_save env (trace w) form = inr object /\
    EditView.get_edit_url env self w'
      = (url_table env (edit_url_name self) [obj_id object],
         extend w' [Reversed (edit_url_name self) [obj_id object]]) /\
    EditView.get_delete_url env self w'
      = (url_table env (delete_url_name self) [obj_id object],
         extend w' [Reversed (delete_url_name self) [obj_id object]]) /\
    (forall lvl text edit_url label,
       MessageAdded lvl text [(edit_url, label)] ∈ added w w' ->
       fst (EditView.get_edit_url env self w') = inr edit_url).
Proof.
  unfold EditView.get_edit_url, EditView.get_delete_url.
  unfold_views; intros Hrun; split_answers; solve_added;
    eexists; (split; [done|]); unfold extend; step_world;
    (split; [congruence|]); (split; [congruence|]);
    intros lvl text edit_url label Hin; cbn [app] in Hin;
    repeat (apply elem_of_cons in Hin as [Hin|Hin]; [by simplify_eq|]);
    by apply elem_of_nil in Hin.
Qed.

Lemma edit_urls_follow_the_saved_object_witness :
  let self := Example.with_messages (Example.things EditView.defaults) in
  let r := EditView.form_valid Example.env self "x" Example.start in
  r = (inr (HttpResponseRedirect "/admin/things/"), snd r) /\
  exists object,
    form_save Example.env (trace Example.start) "x" = inr object /\
    EditView.get_edit_url Example.env self (snd r)
      = (Example.urls (Some "things:edit") [obj_id object],
         extend (snd r) [Reversed (Some "things:edit") [obj_id object]]) /\
    EditView.get_delete_url Example.env self (snd r)
      = (Example.urls (Some "things:delete") [obj_id object],
         extend (snd r) [Reversed (Some "things:delete") [obj_id object]]) /\
    (forall lvl text edit_url label,
       MessageAdded lvl text [(edit_url, label)] ∈ added Example.start (snd r) ->
       fst (EditView.get_edit_url Example.env self (snd r)) = inr edit_url).
Proof.
  intros self r.
  assert (Hr : r = (inr (HttpResponseRedirect "/admin/things/"), snd r)) by (vm_compute; reflexivity).
  split; [exact Hr|].
  exact (edit_urls_follow_the_saved_object Example.env self "x" Example.start _ _ Hr).
Defined.

(** ** Beyond the claims: deletion that fails *)

(** X16. The success message comes after [super().delete()]: when that call
    raises (no such object, no argument to find it by, an index URL that
    does not reverse, a failing delete), [DeleteView.delete] raises the same
    exception from the same state and no message has been flashed. *)
Theorem failed_delete_flashes_nothing (env : collaborators) (self : view)
    (request : request_t) (w : world) (e : exn) (w1 : world) :
  Framework.delete env (DeleteView.get_object env request)
    (DeleteView.get_success_url env self) w = (inl e, w1) ->
  DeleteView.delete env self request w = (inl e, w1) /\
  List.filter is_message (added w w1) = [].
Proof.
  intros Hdel. split.
  - unfold DeleteView.delete. unfold bind at 1. by rewrite Hdel.
  - revert Hdel. unfold_views. intros Hdel. split_answers; solve_added; done.
Qed.

Lemma failed_delete_flashes_nothing_witness :
  let self := Example.with_messages (Example.things DeleteView.defaults) in
  let request := Request "admin" POST "" [8] in
  let r := Framework.delete Example.env (DeleteView.get_object Example.env request)
             (DeleteView.get_success_url Example.env self) Example.start in
  r = (inl Http404, snd r) /\
  DeleteView.delete Example.env self request Example.start = (inl Http404, snd r) /\
  List.filter is_message (added Example.start (snd r)) = [].
Proof.
  intros self request r.
  assert (Hr : r = (inl Http404, snd r)) by (vm_compute; reflexivity).
  split; [exact Hr|].
  exact (failed_delete_flashes_nothing Example.env self request Example.start _ _ Hr).
Defined.

(** ** Beyond the claims: template contexts *)

(** X17. [get_context_data] of [IndexView] and of [EditView] always
    succeeds and changes one entry only: every key other than ['can_add']
    (['can_delete']) has the value the base class's context gives it.  On
    the way the policy is asked at most one question, about ['add']
    (['delete']), and none at all when there is no policy; nothing else is
    called and the view's state is not touched. *)
Theorem get_context_data_adds_one_entry (env : collaborators) (self : view)
    (request : request_t) (kwargs : gmap string pyval) (w : world) :
  let asked (a : action) :=
    match permission_policy self with
    | None => []
    | Some _ => [UserHasPermission (req_user request) a]
    end in
  exists index_context edit_context,
    IndexView.get_context_data env self request kwargs w
      = (inr index_context, extend w (asked "add")) /\
    EditView.get_context_data env self request kwargs w
      = (inr edit_context, extend w (asked "delete")) /\
    (forall key, key <> "can_add" ->
       index_context !! key = super_get_context_data env kwargs !! key) /\
    (forall key, key <> "can_delete" ->
       edit_context !! key = super_get_context_data env kwargs !! key).
Proof.
  unfold IndexView.get_context_data, EditView.get_context_data.
  unfold bind, ret, user_has_permission, bind, ret, log.
  destruct (permission_policy self) as [p|]; cbn [fst snd];
    rewrite ?extend_nil; eexists _, _; split_and!; try reflexivity;
    intros key Hkey; by rewrite lookup_insert_ne.
Qed.

(** ** Beyond the claims: hooks *)

(** X18. What [run_hook] returns is either [None] or a value with a
    [status_code]: a callback's result of any other kind is dropped, so a
    caller may return whatever [run_hook] gives that is not [None] as the
    response. *)
Theorem run_hook_returns_none_or_response (env : collaborators) (hook_name : string)
    (args : list pyval) (kwargs : gmap string pyval) (w : world)
    (result : pyval) (w' : world) :
  HookResponseMixin.run_hook env hook_name args kwargs w = (inr result, w') ->
  result = PyNone \/ hasattr result "status_code" = true.
Proof.
  unfold HookResponseMixin.run_hook. intros Hrun.
  destruct (run_hook_loop_outcome (get_hooks env hook_name) args kwargs w)
    as [(? & ? & ? & r & ? & ? & _ & _ & _ & Hs & Hr)
       |[(? & _ & Hr)|(? & ? & ? & ? & ? & ? & _ & _ & _ & Hr)]];
    rewrite Hr in Hrun; simplify_eq; auto.
Qed.

Lemma run_hook_returns_none_or_response_witness :
  let r := HookResponseMixin.run_hook Example.env "before_edit" [] ∅ Example.start in
  r = (inr (PyHttpResponse 302), snd r) /\
  (PyHttpResponse 302 = PyNone \/ hasattr (PyHttpResponse 302) "status_code" = true).
Proof.
  intros r.
  assert (Hr : r = (inr (PyHttpResponse 302), snd r)) by (vm_compute; reflexivity).
  split; [exact Hr|].
  exact (run_hook_returns_none_or_response Example.env "before_edit" [] ∅ Example.start _ _ Hr).
Defined.

(** X19. Running the callbacks of two lists put end to end is running the
    first list and, unless that gave a response or raised, running the
    second list from the state the first left: callbacks registered later
    cannot change what the earlier ones did, and are reached only when
    none of the earlier ones answered. *)
Theorem run_hook_loop_app (earlier later : list callback) (args : list pyval)
    (kwargs : gmap string pyval) (w : world) :
  HookResponseMixin.run_hook_loop (earlier ++ later) args kwargs w =
    match HookResponseMixin.run_hook_loop earlier args kwargs w with
    | (inr result, w1) =>
        if hasattr result "status_code" then (inr result, w1)
        else HookResponseMixin.run_hook_loop later args kwargs w1
    | (inl e, w1) => (inl e, w1)
    end.
Proof.
  revert w. induction earlier as [|fn rest IH]; intros w; [done|].
  rewrite <- app_comm_cons, !run_hook_loop_cons.
  destruct (fn args kwargs w) as [[e|result] w1]; [done|].
  destruct (hasattr result "status_code") eqn:Hattr; [by rewrite Hattr|].
  apply IH.
Qed.
